(** * ReshADX Python SDK: the HTTP transport and the webhook verifier

    A shallow embedding of
      - [reshadx/utils/errors.py]    (the typed error),
      - [reshadx/utils/http.py]      (class [HttpClient]),
      - [reshadx/resources/webhooks.py] (the two static helpers
        [verify_signature] and [parse_payload]),
    together with a model of the collaborators these files configure and
    call: [urllib3.util.retry.Retry], [requests.adapters.HTTPAdapter],
    [requests.Session], [hmac]/[hashlib.sha256].

    Python values are represented as follows.
      - [str]: a list of Unicode code points ([list N]);
      - [bytes]: [list byte];
      - [int]: [Z];
      - a decoded JSON document: the inductive [json] ([None] is [JNull],
        a [dict] is an association list in insertion order);
      - an exception: a value of [exn], results are [exn + A];
      - the mutable [HttpClient] object: a record threaded through every
        method (each method returns the new record). *)

From Stdlib Require Import ZArith NArith List Bool String Ascii Lia.
From Stdlib Require Import DecimalString Strings.Byte.
From stdpp Require Import base option gmap strings list.

Local Open Scope Z_scope.

Set Warnings "-register-all".

(* ===================================================================== *)
(** ** Python strings *)
(* ===================================================================== *)

Module Py.

(** A Python [str]: its sequence of code points. *)
Definition str := list N.

(** A literal of the source text. *)
Fixpoint py (s : string) : str :=
  match s with
  | EmptyString => []
  | String a s' => N_of_ascii a :: py s'
  end.

Arguments py : simpl never.

(** A text written with ['] where it has a double quote. *)
Definition quoted (s : string) : str :=
  map (fun c => if (c =? 39)%N then 34%N else c) (py s).

Definition str_eqb (a b : str) : bool := bool_decide (a = b).

(** [format(n, "d")], as an f-string renders an [int]. *)
Definition str_of_int (n : Z) : str := py (NilZero.string_of_int (Z.to_int n)).

Fixpoint startswith (s p : str) : bool :=
  match p, s with
  | [], _ => true
  | c :: p', d :: s' => (c =? d)%N && startswith s' p'
  | _ :: _, [] => false
  end.

(** [p in s] for two strings: [p] occurs in [s] as a substring. *)
Fixpoint contains (s p : str) : bool :=
  startswith s p ||
  match s with
  | [] => false
  | _ :: s' => contains s' p
  end.

(** [s.lstrip("/")] *)
Fixpoint lstrip_slash (s : str) : str :=
  match s with
  | c :: s' => if (c =? 47)%N then lstrip_slash s' else s
  | [] => []
  end.

(** [c.upper()] on the ASCII letters, which is all a method name has. *)
Definition upper_char (c : N) : N :=
  if ((97 <=? c) && (c <=? 122))%N then (c - 32)%N else c.

Definition upper (s : str) : str := map upper_char s.

Definition is_ascii (c : N) : bool := (c <? 128)%N.

End Py.
Import Py.

(* ===================================================================== *)
(** ** Decoded JSON documents *)
(* ===================================================================== *)

Module Json.

(** What [json.loads] / [Response.json()] return.  Numbers are the
    integers; no function below inspects a number beyond its truth
    value. *)
Inductive json : Type :=
| JNull
| JBool (b : bool)
| JNum (n : Z)
| JStr (s : str)
| JArr (items : list json)
| JObj (fields : list (str * json)).

(** [d.get(k)] on the association list of a [dict]. *)
Fixpoint assoc (k : str) (fields : list (str * json)) : option json :=
  match fields with
  | [] => None
  | (k', v) :: rest => if str_eqb k k' then Some v else assoc k rest
  end.

(** [d.get(k, default)] *)
Definition get_default (k : str) (default : json) (fields : list (str * json)) : json :=
  match assoc k fields with
  | Some v => v
  | None => default
  end.

(** Python truth value, as used by [x or y]. *)
Definition truthy (v : json) : bool :=
  match v with
  | JNull => false
  | JBool b => b
  | JNum n => negb (n =? 0)
  | JStr s => match s with [] => false | _ => true end
  | JArr l => match l with [] => false | _ => true end
  | JObj f => match f with [] => false | _ => true end
  end.

(** ["lit" == v] for a string literal. *)
Definition eq_str (lit : str) (v : json) : bool :=
  match v with
  | JStr s => str_eqb lit s
  | _ => false
  end.

End Json.
Import Json.

(* ===================================================================== *)
(** ** Exceptions and the typed error of [utils/errors.py] *)
(* ===================================================================== *)

Module Errors.

(** The exceptions of [requests.exceptions] that can reach
    [HttpClient.request].  All derive from [RequestException];
    [ConnectTimeout] derives from both [ConnectionError] and [Timeout];
    [JSONDecodeError] (raised by [Response.json()], requests >= 2.27)
    derives from [RequestException] and from [ValueError]. *)
Inductive requests_exception : Type :=
| ConnectTimeout
| ReadTimeout
| ConnectionError
| RetryError (status : Z)
| JSONDecodeError.

Definition is_Timeout (e : requests_exception) : bool :=
  match e with
  | ConnectTimeout | ReadTimeout => true
  | _ => false
  end.

Definition is_ConnectionError (e : requests_exception) : bool :=
  match e with
  | ConnectTimeout | ConnectionError => true
  | _ => false
  end.

(** A value stored in [ReshADXError.message]: either something taken
    from a JSON document or a literal, or [str(e)] of a requests
    exception, which is kept symbolic. *)
Inductive text : Type :=
| Val (v : json)
| StrOf (e : requests_exception).

Definition lit (s : string) : json := JStr (py s).

Inductive error_class : Type :=
| ReshADXError_class
| ServerError_class.

(** [class ReshADXError(Exception)]: the fields set by [__init__]. *)
Record ReshADXError : Type := mkError {
  cls : error_class;
  message : text;
  code : json;
  status_code : Z;
  details : json
}.

(** [ReshADXError.__init__(message, code, status_code=0, details=None)];
    the last line is [self.details = details or {}]. *)
Definition ReshADXError_init (c : error_class) (message : text) (code : json)
    (status_code : Z) (details : option json) : ReshADXError :=
  {| cls := c;
     message := message;
     code := code;
     status_code := status_code;
     details := match details with
                | Some d => if truthy d then d else JObj []
                | None => JObj []
                end |}.

Definition new_ReshADXError (message : text) (code : json) (status_code : Z)
    (details : option json) : ReshADXError :=
  ReshADXError_init ReshADXError_class message code status_code details.

(** [class ServerError(ReshADXError)]:
    [super().__init__(message, "SERVER_ERROR", 500)] *)
Definition ServerError (message : str) : ReshADXError :=
  ReshADXError_init ServerError_class (Val (JStr message)) (lit "SERVER_ERROR") 500 None.

Definition is_validation_error (e : ReshADXError) : bool :=
  eq_str (py "VALIDATION_ERROR") (code e).

Definition is_auth_error (e : ReshADXError) : bool :=
  eq_str (py "INVALID_CREDENTIALS") (code e)
  || eq_str (py "INVALID_TOKEN") (code e)
  || eq_str (py "TOKEN_EXPIRED") (code e).

Definition is_rate_limit_error (e : ReshADXError) : bool :=
  eq_str (py "RATE_LIMIT_EXCEEDED") (code e).

Definition is_network_error (e : ReshADXError) : bool :=
  eq_str (py "NETWORK_ERROR") (code e).

(** Everything a call of [HttpClient.request] can raise. *)
Inductive exn : Type :=
| Raise (e : ReshADXError)
| TypeError
| AttributeError
| KeyError
| ValueError.

Definition is_typed (x : exn) : bool :=
  match x with
  | Raise _ => true
  | _ => false
  end.

End Errors.
Import Errors.

(* ===================================================================== *)
(** ** What travels on the wire *)
(* ===================================================================== *)

Module Wire.

(** What [Response.json()] does when the body is not JSON: before
    requests 2.27 a plain [ValueError] leaves the call, from 2.27 on a
    [requests.exceptions.JSONDecodeError]. *)
Inductive json_failure : Type :=
| PlainValueError
| RequestsJSONDecodeError.

(** A [requests.Response] as far as the SDK reads it: [status_code],
    [text], the outcome of [json()], and the delay in seconds that
    urllib3 reads off a [Retry-After] header when there is one
    ([Retry-After: 2] is [Some 2]). *)
Record Response : Type := mkResponse {
  resp_status : Z;
  resp_text : str;
  resp_json : json_failure + json;
  resp_retry_after : option N
}.

(** [Response.ok]: [raise_for_status()] raises for 400 <= status < 600. *)
Definition ok (r : Response) : bool :=
  negb ((400 <=? resp_status r) && (resp_status r <? 600)).

(** A connection-level failure of one attempt, as urllib3 sees it. *)
Inductive conn_error : Type :=
| ConnectTimeoutError
| NewConnectionError
| ReadTimeoutError
| ProtocolError.

(** What one attempt meets. *)
Inductive wire_event : Type :=
| Got (r : Response)
| Broke (e : conn_error).

End Wire.
Import Wire.

(* ===================================================================== *)
(** ** The retry policy: [urllib3.util.retry.Retry] *)
(* ===================================================================== *)

Module Urllib3.

(** The fields of [Retry] that [HttpClient.__init__] sets or leaves at
    their defaults ([connect], [read], [status], [other] stay [None] and
    never count; [redirect] is not used, requests follows redirects
    itself).  [history] is the number of failed attempts so far. *)
Record Retry : Type := mkRetry {
  total : Z;
  backoff_factor : Z;
  status_forcelist : list Z;
  allowed_methods : list str;
  raise_on_status : bool;
  respect_retry_after_header : bool;
  history : nat
}.

Definition RETRY_AFTER_STATUS_CODES : list Z := [413; 429; 503].
Definition DEFAULT_BACKOFF_MAX : Z := 120.
(** [Retry.DEFAULT_RETRY_AFTER_MAX], six hours: current urllib3 sleeps
    no longer than that on a [Retry-After] header ([retry_after_max],
    which [HttpClient] leaves at its default). *)
Definition DEFAULT_RETRY_AFTER_MAX : Z := 21600.

Definition mem_Z (x : Z) (l : list Z) : bool := existsb (Z.eqb x) l.
Definition mem_str (x : str) (l : list str) : bool := existsb (str_eqb x) l.
Definition nonempty {A} (l : list A) : bool :=
  match l with [] => false | _ => true end.

(** [Retry._is_method_retryable] *)
Definition _is_method_retryable (r : Retry) (method : str) : bool :=
  if nonempty (allowed_methods r) && negb (mem_str (upper method) (allowed_methods r))
  then false
  else true.

(** [Retry.is_retry(method, status_code, has_retry_after)] *)
Definition is_retry (r : Retry) (method : str) (status : Z) (has_retry_after : bool) : bool :=
  if negb (_is_method_retryable r method) then false
  else if nonempty (status_forcelist r) && mem_Z status (status_forcelist r) then true
  else negb (total r =? 0)
       && respect_retry_after_header r
       && has_retry_after
       && mem_Z status RETRY_AFTER_STATUS_CODES.

(** [Retry.is_exhausted]: only [total] is a number here. *)
Definition is_exhausted (r : Retry) : bool := total r <? 0.

Inductive increment_result : Type :=
| Reraise                (* the error is raised again as it is *)
| Exhausted              (* [MaxRetryError] *)
| Continue (r' : Retry).

(** [Retry.increment(method, url, response=..., error=...)]:
    [error] is [Some e] after a connection-level failure and [None]
    after a response that [is_retry] selected.  A read error on a
    method that is not allowed is not retried. *)
Definition increment (r : Retry) (method : str) (error : option conn_error) : increment_result :=
  let r' := {| total := total r - 1;
               backoff_factor := backoff_factor r;
               status_forcelist := status_forcelist r;
               allowed_methods := allowed_methods r;
               raise_on_status := raise_on_status r;
               respect_retry_after_header := respect_retry_after_header r;
               history := S (history r) |} in
  let next := if is_exhausted r' then Exhausted else Continue r' in
  match error with
  | Some ReadTimeoutError | Some ProtocolError =>
      if negb (_is_method_retryable r method) then Reraise else next
  | _ => next
  end.

(** [Retry.get_backoff_time] *)
Definition get_backoff_time (r : Retry) : Z :=
  if (history r <=? 1)%nat then 0
  else Z.min DEFAULT_BACKOFF_MAX
             (backoff_factor r * 2 ^ (Z.of_nat (history r) - 1)).

(** [Retry.sleep(response)]: the seconds handed to [time.sleep]
    ([0] when nothing is slept).  A positive [Retry-After] is slept, up
    to [DEFAULT_RETRY_AFTER_MAX], and the backoff is skipped. *)
Definition sleep (r : Retry) (response : option Response) : Z :=
  let backoff := Z.max 0 (get_backoff_time r) in
  match response with
  | Some resp =>
      if respect_retry_after_header r then
        match resp_retry_after resp with
        | Some n => if (0 <? n)%N then Z.min (Z.of_N n) DEFAULT_RETRY_AFTER_MAX else backoff
        | None => backoff
        end
      else backoff
  | None => backoff
  end.

(** [bool(response.headers.get("Retry-After"))] *)
Definition has_retry_after (resp : Response) : bool :=
  match resp_retry_after resp with Some _ => true | None => false end.

(** How [HTTPConnectionPool.urlopen] ends. *)
Inductive urlopen_result : Type :=
| Returned (r : Response)
| MaxRetryError (reason : conn_error + Z)   (* [inr s]: [ResponseError], too many [s] responses *)
| Reraised (e : conn_error).

(** The run of one [urlopen] call. *)
Record run : Type := mkRun {
  result : urlopen_result;
  attempts : nat;          (* requests put on the wire *)
  sleeps : list Z          (* the pause after each attempt that was retried *)
}.

Definition retried (pause : Z) (rest : option run) : option run :=
  match rest with
  | Some k => Some {| result := result k; attempts := S (attempts k); sleeps := pause :: sleeps k |}
  | None => None
  end.

Definition finished (res : urlopen_result) : option run :=
  Some {| result := res; attempts := 1; sleeps := [] |}.

(** [HTTPConnectionPool.urlopen(method, url, retries=retries)] against
    a server that answers the successive attempts with [script].  The
    call is recursive in the source as well; each attempt consumes one
    event.  [None]: the script ends before the call does. *)
Fixpoint urlopen (retries : Retry) (method : str) (script : list wire_event) : option run :=
  match script with
  | [] => None
  | Got response :: rest =>
      if is_retry retries method (resp_status response) (has_retry_after response) then
        match increment retries method None with
        | Continue retries' =>
            retried (sleep retries' (Some response)) (urlopen retries' method rest)
        | _ =>
            if raise_on_status retries
            then finished (MaxRetryError (inr (resp_status response)))
            else finished (Returned response)
        end
      else finished (Returned response)
  | Broke e :: rest =>
      match increment retries method (Some e) with
      | Continue retries' =>
          retried (sleep retries' None) (urlopen retries' method rest)
      | Exhausted => finished (MaxRetryError (inl e))
      | Reraise => finished (Reraised e)
      end
  end.

End Urllib3.

(* ===================================================================== *)
(** ** [requests]: the adapter and the session *)
(* ===================================================================== *)

Module Requests.
Import Urllib3.

(** The request as prepared by [Session.request]: the headers are the
    session's at the time of the call.  [req_url] keeps the two
    arguments of [urljoin]; [params], the JSON body and [timeout] are
    handed on unchanged and nothing below reads them. *)
Record PreparedRequest : Type := mkPrepared {
  req_method : str;
  req_url : str * str;
  req_headers : gmap string str
}.

(** [requests.Session] with the one adapter mounted for both schemes.
    Header names are matched as written (the real dictionary ignores
    their case; no two names used here differ by case only). *)
Record Session : Type := mkSession {
  headers : gmap string str;
  max_retries : Retry
}.

(** [Session()]'s own default headers (the first two values vary with
    the installed version; [HttpClient] overwrites [User-Agent]). *)
Definition default_headers : gmap string str :=
  {[ "User-Agent" := py "python-requests";
     "Accept-Encoding" := py "gzip, deflate";
     "Accept" := py "*/*";
     "Connection" := py "keep-alive" ]}.

(** The [except] clauses of [HTTPAdapter.send] that turn urllib3's
    errors into those of requests. *)
Definition adapter_error (res : urlopen_result) : requests_exception + Response :=
  match res with
  | Returned r => inr r
  | MaxRetryError (inl ConnectTimeoutError) => inl ConnectTimeout
  | MaxRetryError (inr s) => inl (RetryError s)
  | MaxRetryError (inl _) => inl ConnectionError
  | Reraised ReadTimeoutError => inl ReadTimeout
  | Reraised _ => inl ConnectionError
  end.

(** One call of [Session.request] as observed from outside. *)
Record exchange : Type := mkExchange {
  outcome : requests_exception + Response;
  sent : list PreparedRequest;     (* one entry per attempt *)
  pauses : list Z
}.

(** [Session.request(method, url, ...)], from the first attempt on.
    What requests does before it is outside this definition: a header
    value with a line break is refused with [InvalidHeader], one with a
    character outside latin-1 fails in [http.client] with
    [UnicodeEncodeError], and in both cases nothing is sent.  So [sent]
    is never empty here, whereas a real call may send nothing; the
    statements on what every request carries are made with [Forall] and
    hold of such a call as well.  The responses of a script have no
    [Location] header, so there is no redirect for requests to
    follow; and the environment gives requests no credentials of its
    own for the host (an entry in a netrc file would be sent as
    [Authorization]). *)
Definition request (s : Session) (method : str) (url : str * str)
    (script : list wire_event) : option exchange :=
  let prepared := {| req_method := method; req_url := url; req_headers := headers s |} in
  match urlopen (max_retries s) method script with
  | Some k => Some {| outcome := adapter_error (result k);
                      sent := replicate (attempts k) prepared;
                      pauses := sleeps k |}
  | None => None
  end.

End Requests.

(* ===================================================================== *)
(** ** [utils/http.py]: class [HttpClient] *)
(* ===================================================================== *)

Module Http.
Import Urllib3 Requests.

Record HttpClient : Type := mkClient {
  api_key : str;
  access_token : option str;
  timeout : Z;
  base_url : str;
  session : Session
}.

(** The [Retry(...)] of [__init__]; [raise_on_status] and
    [respect_retry_after_header] are left at urllib3's defaults. *)
Definition retry_strategy (max_retries : Z) : Retry :=
  {| total := max_retries;
     backoff_factor := 1;
     status_forcelist := [429; 500; 502; 503; 504];
     allowed_methods := map py ["HEAD"; "GET"; "PUT"; "DELETE"; "OPTIONS"; "TRACE"; "POST"]%string;
     raise_on_status := true;
     respect_retry_after_header := true;
     history := 0 |}.

(** [HttpClient.__init__(api_key, environment, base_url, timeout, max_retries)] *)
Definition __init__ (api_key environment : str) (base_url : option str)
    (timeout max_retries : Z) : HttpClient :=
  {| api_key := api_key;
     access_token := None;
     timeout := timeout;
     base_url :=
       match base_url with
       | Some (c :: u) => c :: u
       | _ =>
           if str_eqb environment (py "production")
           then py "https://api.reshadx.com/v1"
           else py "https://sandbox-api.reshadx.com/v1"
       end;
     session :=
       {| headers :=
            <["User-Agent" := py "ReshADX-Python-SDK/1.0.0"]>
              (<["X-API-Key" := api_key]>
                 (<["Content-Type" := py "application/json"]> default_headers));
          max_retries := retry_strategy max_retries |} |}.

Definition with_token (c : HttpClient) (tok : option str) (h : gmap string str) : HttpClient :=
  {| api_key := api_key c;
     access_token := tok;
     timeout := timeout c;
     base_url := base_url c;
     session := {| headers := h; max_retries := max_retries (session c) |} |}.

(** [set_access_token(token)] *)
Definition set_access_token (token : str) (c : HttpClient) : HttpClient :=
  with_token c (Some token)
    (<["Authorization" := (py "Bearer " ++ token)%list]> (headers (session c))).

(** [clear_access_token()] *)
Definition clear_access_token (c : HttpClient) : HttpClient :=
  with_token c None
    (match headers (session c) !! "Authorization"%string with
     | Some _ => delete "Authorization"%string (headers (session c))
     | None => headers (session c)
     end).

(** ["error" in error_data] *)
Definition contains_error (error_data : json) : exn + bool :=
  match error_data with
  | JObj f => inr (match assoc (py "error") f with Some _ => true | None => false end)
  | JArr l => inr (existsb (eq_str (py "error")) l)
  | JStr s => inr (contains s (py "error"))
  | _ => inl TypeError
  end.

(** [error_data["error"]] *)
Definition getitem_error (error_data : json) : exn + json :=
  match error_data with
  | JObj f => match assoc (py "error") f with Some v => inr v | None => inl KeyError end
  | _ => inl TypeError
  end.

(** The fallback [ServerError(f"HTTP {response.status_code}: {response.text}")]. *)
Definition fallback_error (response : Response) : exn :=
  Raise (ServerError (py "HTTP " ++ str_of_int (resp_status response)
                      ++ py ": " ++ resp_text response)%list).

(** [_handle_error_response(response)]; it always raises, the value is
    what it raises.  Only the [ValueError] of [response.json()] is
    caught. *)
Definition _handle_error_response (response : Response) : exn :=
  match resp_json response with
  | inl _ => fallback_error response
  | inr error_data =>
      match contains_error error_data with
      | inl x => x
      | inr false => fallback_error response
      | inr true =>
          match getitem_error error_data with
          | inl x => x
          | inr (JObj error) =>
              Raise (new_ReshADXError
                       (Val (get_default (py "message") (lit "Unknown error") error))
                       (get_default (py "code") (lit "UNKNOWN_ERROR") error)
                       (resp_status response)
                       (Some (get_default (py "details") JNull error)))
          | inr _ => AttributeError
          end
      end
  end.

(** The three [except] clauses of [request], tried in order. *)
Definition translate (e : requests_exception) : exn :=
  if is_Timeout e then
    Raise (new_ReshADXError (Val (lit "Request timed out")) (lit "TIMEOUT_ERROR") 0 None)
  else if is_ConnectionError e then
    Raise (new_ReshADXError (Val (lit "Connection error")) (lit "NETWORK_ERROR") 0 None)
  else
    Raise (new_ReshADXError (StrOf e) (lit "NETWORK_ERROR") 0 None).

(** [if isinstance(data, dict) and "data" in data: return data["data"]] *)
Definition unwrap (data : json) : json :=
  match data with
  | JObj f => match assoc (py "data") f with Some d => d | None => data end
  | _ => data
  end.

(** The body of the [try] once [session.request] has come back. *)
Definition conclude (o : requests_exception + Response) : exn + json :=
  match o with
  | inr response =>
      if negb (ok response) then inl (_handle_error_response response)
      else match resp_json response with
           | inr data => inr (unwrap data)
           | inl PlainValueError => inl ValueError
           | inl RequestsJSONDecodeError => inl (translate JSONDecodeError)
           end
  | inl e => inl (translate e)
  end.

(** A finished call: the client afterwards, what the call returned or
    raised, and what went over the wire. *)
Record call : Type := mkCall {
  client : HttpClient;
  answer : exn + json;
  wire : exchange
}.

(** [HttpClient.request(method, path)] *)
Definition request (c : HttpClient) (method path : str) (script : list wire_event)
    : option call :=
  let url := (base_url c, lstrip_slash path) in
  match Requests.request (session c) method url script with
  | Some x => Some {| client := c; answer := conclude (outcome x); wire := x |}
  | None => None
  end.

Definition get (c : HttpClient) := request c (py "GET").
Definition post (c : HttpClient) := request c (py "POST").
Definition put (c : HttpClient) := request c (py "PUT").
Definition patch (c : HttpClient) := request c (py "PATCH").
Definition delete (c : HttpClient) := request c (py "DELETE").

End Http.

(* ===================================================================== *)
(** ** [hashlib.sha256] and [hmac] *)
(* ===================================================================== *)

Module Hash.
Local Open Scope N_scope.

Definition bytes := list byte.

Definition byte_of (n : N) : byte :=
  match Byte.of_N (n mod 256) with Some b => b | None => x00 end.

Definition w32 (x : N) : N := N.land x 0xFFFFFFFF.
Definition add32 (a b : N) : N := w32 (a + b).
Definition rotr (n x : N) : N := w32 (N.lor (N.shiftr x n) (N.shiftl x (32 - n))).
Definition not32 (x : N) : N := N.lxor x 0xFFFFFFFF.

Definition Ch (x y z : N) := N.lxor (N.land x y) (N.land (not32 x) z).
Definition Maj (x y z : N) := N.lxor (N.lxor (N.land x y) (N.land x z)) (N.land y z).
Definition Sigma0 (x : N) := N.lxor (N.lxor (rotr 2 x) (rotr 13 x)) (rotr 22 x).
Definition Sigma1 (x : N) := N.lxor (N.lxor (rotr 6 x) (rotr 11 x)) (rotr 25 x).
Definition sigma0 (x : N) := N.lxor (N.lxor (rotr 7 x) (rotr 18 x)) (N.shiftr x 3).
Definition sigma1 (x : N) := N.lxor (N.lxor (rotr 17 x) (rotr 19 x)) (N.shiftr x 10).

(** The largest [r] below [2 ^ bits] with [r ^ k <= n], found bit by bit
    from the top. *)
Fixpoint iroot (k : N) (bits : nat) (n r : N) : N :=
  match bits with
  | O => r
  | S b =>
      let r' := r + 2 ^ N.of_nat b in
      iroot k b n (if r' ^ k <=? n then r' else r)
  end.

Definition is_prime (n : N) : bool :=
  (2 <=? n) && forallb (fun d => negb (n mod N.of_nat d =? 0)) (seq 2 (N.to_nat n - 2)).

Definition first_primes (count : nat) : list N :=
  firstn count (filter is_prime (map N.of_nat (seq 0 320))).

(** The first 32 bits of the fractional part of the [k]-th root of [p]. *)
Definition frac_root32 (k : N) (p : N) : N :=
  iroot k 40 (p * 2 ^ (32 * k)) 0 mod 2 ^ 32.

(** The round constants: cube roots of the first 64 primes. *)
Definition K : list N := Eval vm_compute in map (frac_root32 3) (first_primes 64).

(** The initial state: square roots of the first 8 primes. *)
Definition H0 : list N := Eval vm_compute in map (frac_root32 2) (first_primes 8).

(** Big-endian bytes of a number, [len] of them. *)
Fixpoint be_bytes (len : nat) (x : N) : list N :=
  match len with
  | O => []
  | S k => be_bytes k (x / 256) ++ [x mod 256]
  end.

Definition be_word (bs : list N) : N := fold_left (fun acc b => acc * 256 + b) bs 0.

(** The padded message: 0x80, zeros up to 56 mod 64, the bit length. *)
Definition pad (msg : list N) : list N :=
  let l := N.of_nat (length msg) in
  let zeros := (119 - l mod 64) mod 64 in
  msg ++ [128] ++ repeat 0 (N.to_nat zeros) ++ be_bytes 8 (8 * l).

Fixpoint words (fuel : nat) (bs : list N) : list N :=
  match fuel, bs with
  | S k, a :: b :: c :: d :: rest => be_word [a; b; c; d] :: words k rest
  | _, _ => []
  end.

(** The message schedule, newest word first. *)
Fixpoint schedule (n : nat) (w : list N) : list N :=
  match n with
  | O => w
  | S k =>
      let new := add32 (add32 (sigma1 (nth 1 w 0)) (nth 6 w 0))
                       (add32 (sigma0 (nth 14 w 0)) (nth 15 w 0)) in
      schedule k (new :: w)
  end.

Definition round (st : list N) (kw : N * N) : list N :=
  match st with
  | [a; b; c; d; e; f; g; h] =>
      let t1 := add32 (add32 (add32 h (Sigma1 e)) (add32 (Ch e f g) (fst kw))) (snd kw) in
      let t2 := add32 (Sigma0 a) (Maj a b c) in
      [add32 t1 t2; a; b; c; add32 d t1; e; f; g]
  | _ => st
  end.

Definition compress (st : list N) (block : list N) : list N :=
  let w := rev (schedule 48 (rev block)) in
  let st' := fold_left round (combine K w) st in
  map (fun p => add32 (fst p) (snd p)) (combine st st').

Fixpoint blocks (fuel : nat) (ws : list N) (st : list N) : list N :=
  match fuel with
  | O => st
  | S k =>
      match ws with
      | [] => st
      | _ => blocks k (skipn 16 ws) (compress st (firstn 16 ws))
      end
  end.

(** [hashlib.sha256(msg).digest()] *)
Definition sha256 (msg : bytes) : bytes :=
  let p := pad (map Byte.to_N msg) in
  let ws := words (length p) p in
  map byte_of (concat (map (be_bytes 4) (blocks (length ws) ws H0))).

Definition xor_pad (c : N) (key : bytes) : bytes :=
  map (fun b => byte_of (N.lxor (Byte.to_N b) c)) key.

(** [hmac.new(key, msg, hashlib.sha256).digest()]: block size 64. *)
Definition hmac_sha256 (key msg : bytes) : bytes :=
  let k0 := if (64 <? length key)%nat then sha256 key else key in
  let k := (k0 ++ repeat x00 (64 - length k0))%list in
  sha256 (xor_pad 0x5c k ++ sha256 (xor_pad 0x36 k ++ msg)).

Definition hex_digit (n : N) : N := if n <? 10 then 48 + n else 87 + n.

Definition hex_of_byte (b : byte) : str :=
  [hex_digit (Byte.to_N b / 16); hex_digit (Byte.to_N b mod 16)].

(** [.hexdigest()]: lower-case hexadecimal. *)
Definition hexlify (bs : bytes) : str := concat (map hex_of_byte bs).

(** One character of [s.encode("utf-8")]; lone surrogates are refused
    with [UnicodeEncodeError]. *)
Definition utf8_char (c : N) : option (list byte) :=
  if c <? 0x80 then Some [byte_of c]
  else if c <? 0x800 then
    Some [byte_of (0xC0 + c / 64); byte_of (0x80 + c mod 64)]
  else if (0xD800 <=? c) && (c <=? 0xDFFF) then None
  else if c <? 0x10000 then
    Some [byte_of (0xE0 + c / 4096); byte_of (0x80 + (c / 64) mod 64);
          byte_of (0x80 + c mod 64)]
  else if c <? 0x110000 then
    Some [byte_of (0xF0 + c / 262144); byte_of (0x80 + (c / 4096) mod 64);
          byte_of (0x80 + (c / 64) mod 64); byte_of (0x80 + c mod 64)]
  else None.

Fixpoint encode_utf8 (s : str) : option bytes :=
  match s with
  | [] => Some []
  | c :: s' =>
      match utf8_char c, encode_utf8 s' with
      | Some bs, Some rest => Some (bs ++ rest)%list
      | _, _ => None
      end
  end.

End Hash.

(* ===================================================================== *)
(** ** [resources/webhooks.py]: the two static helpers *)
(* ===================================================================== *)

Module Webhooks.
Import Hash.

(** What the body of [verify_signature] can raise. *)
Inductive failure : Type :=
| UnicodeEncodeError          (* [str.encode] on a lone surrogate *)
| CompareTypeError.           (* [compare_digest] on a non-ASCII [str] *)

(** [hmac.compare_digest(a, b)] on two [str]: both must be ASCII. *)
Definition compare_digest (a b : str) : failure + bool :=
  if forallb is_ascii a && forallb is_ascii b
  then inr (str_eqb a b)
  else inl CompareTypeError.

(** [hmac.new(secret.encode("utf-8"), payload.encode("utf-8"),
    hashlib.sha256).hexdigest()] *)
Definition expected_signature (payload secret : str) : failure + str :=
  match encode_utf8 secret with
  | None => inl UnicodeEncodeError
  | Some key =>
      match encode_utf8 payload with
      | None => inl UnicodeEncodeError
      | Some msg => inr (hexlify (hmac_sha256 key msg))
      end
  end.

(** The body of the [try] in [verify_signature]. *)
Definition verify_body (payload signature secret : str) : failure + bool :=
  match expected_signature payload secret with
  | inl x => inl x
  | inr expected => compare_digest signature expected
  end.

(** [Webhooks.verify_signature(payload, signature, secret)] *)
Definition verify_signature (payload signature secret : str) : bool :=
  match verify_body payload signature secret with
  | inr b => b
  | inl _ => false
  end.

Section Parse.
(** [json.loads]; [None] stands for the exception it raises on text
    that is not JSON. *)
Variable json_loads : str -> option json.

(** [Webhooks.parse_payload(raw_body, signature, secret)]; Python's
    [None] is [JNull]. *)
Definition parse_payload (raw_body signature secret : str) : json :=
  if negb (verify_signature raw_body signature secret) then JNull
  else match json_loads raw_body with
       | Some v => v
       | None => JNull
       end.
End Parse.

End Webhooks.

(* ===================================================================== *)
(** ** Vocabulary of the properties *)
(* ===================================================================== *)

Module Spec.
Import Urllib3 Requests Http.

(** The client's session still has the retry policy [__init__] gave it
    for [max_retries = mr]. *)
Definition configured (c : HttpClient) (mr : Z) : Prop :=
  max_retries (session c) = retry_strategy mr.



(** The token slot and the [Authorization] header agree. *)
Definition token_header_agree (c : HttpClient) : Prop :=
  headers (session c) !! "Authorization"%string
  = (fun t => (py "Bearer " ++ t)%list) <$> access_token c.


(** The header a prepared request carries under [Authorization]. *)
Definition authorization (p : PreparedRequest) : option str :=
  req_headers p !! "Authorization"%string.

(** [s'] is [s] with exactly one character replaced by another. *)
Definition one_char_changed (s s' : str) : Prop :=
  exists pre c c' post,
    c <> c' /\ s = (pre ++ c :: post)%list /\ s' = (pre ++ c' :: post)%list.

(** The decoded bodies of an error response on which
    [_handle_error_response] reads a member that is not there: anything
    but an object, array or string; a string or an array that contains
    "error"; an object whose [error] is not an object. *)
Definition malformed_error_body (d : json) : bool :=
  match d with
  | JObj f =>
      match assoc (py "error") f with
      | Some (JObj _) | None => false
      | Some _ => true
      end
  | JArr l => existsb (eq_str (py "error")) l
  | JStr s => contains s (py "error")
  | _ => true
  end.


(** The signature the sender attaches: the hexadecimal HMAC-SHA256 of
    the payload under the secret (empty when it cannot be encoded). *)
Definition sign (payload secret : str) : str :=
  match Webhooks.expected_signature payload secret with
  | inr e => e
  | inl _ => []
  end.

(** *** Sample values used to exercise the statements *)

(** A decoder that knows one document, [{}]. *)
Definition sample_loads (s : str) : option json :=
  if str_eqb s (py "{}") then Some (JObj []) else None.

Definition sample_client : HttpClient :=
  __init__ (py "key") (py "sandbox") None 30 3.

Definition response_of (status : Z) (body : string) (doc : json_failure + json)
    (hint : option N) : Response :=
  {| resp_status := status; resp_text := quoted body; resp_json := doc;
     resp_retry_after := hint |}.

(** [{"success": true, "data": {"accounts": []}}] *)
Definition accounts_ok : Response :=
  response_of 200 "{'success': true, 'data': {'accounts': []}}"
    (inr (JObj [(py "success", JBool true);
                (py "data", JObj [(py "accounts", JArr [])])])) None.

(** A 404 with a well-formed error envelope. *)
Definition not_found : Response :=
  response_of 404 "{'success': false, 'error': {'code': 'NOT_FOUND', 'message': 'no such item'}}"
    (inr (JObj [(py "success", JBool false);
                (py "error", JObj [(py "code", lit "NOT_FOUND");
                                   (py "message", lit "no such item")])])) None.

(** A 404 whose body is the JSON document [null]. *)
Definition null_body : Response :=
  response_of 404 "null" (inr JNull) None.

(** A 404 whose [error] member is a string, not an object. *)
Definition string_error : Response :=
  response_of 404 "{'error': 'Not found'}"
    (inr (JObj [(py "error", lit "Not found")])) None.

(** A 503 with an error envelope. *)
Definition unavailable : Response :=
  response_of 503 "{'success': false, 'error': {'code': 'SERVICE_UNAVAILABLE', 'message': 'try later'}}"
    (inr (JObj [(py "success", JBool false);
                (py "error", JObj [(py "code", lit "SERVICE_UNAVAILABLE");
                                   (py "message", lit "try later")])])) None.

(** A 500 whose body is not JSON. *)
Definition broken : Response :=
  response_of 500 "Internal Server Error" (inl RequestsJSONDecodeError) None.

(** A 429 with [Retry-After: 2]. *)
Definition slow_down : Response :=
  response_of 429 "{'success': false, 'error': {'code': 'RATE_LIMIT_EXCEEDED', 'message': 'slow down'}}"
    (inr (JObj [(py "success", JBool false);
                (py "error", JObj [(py "code", lit "RATE_LIMIT_EXCEEDED");
                                   (py "message", lit "slow down")])])) (Some 2%N).

End Spec.

(* ===================================================================== *)
(** ** Dictionaries built by the resources *)
(* ===================================================================== *)

Module Dict.

(** A Python [dict] with string keys, in insertion order. *)
Definition dict := list (str * json).

(** [d[k] = v]: the value is replaced in place, a new key goes last. *)
Fixpoint setitem (k : str) (v : json) (d : dict) : dict :=
  match d with
  | [] => [(k, v)]
  | (k', v') :: rest =>
      if str_eqb k k' then (k', v) :: rest else (k', v') :: setitem k v rest
  end.


(** [if x: d[k] = x] for an [Optional[str]]: [None] and the empty
    string are falsy. *)
Definition put_str (k : string) (x : option str) (d : dict) : dict :=
  match x with
  | Some (c :: s) => setitem (py k) (JStr (c :: s)) d
  | _ => d
  end.

(** [if x: d[k] = x] for an [Optional[List[str]]]: [None] and [[]] are
    falsy. *)
Definition put_strs (k : string) (x : option (list str)) (d : dict) : dict :=
  match x with
  | Some (a :: l) => setitem (py k) (JArr (map JStr (a :: l))) d
  | _ => d
  end.

(** [if x is not None: d[k] = x] for an [Optional[int]]. *)
Definition put_int (k : string) (x : option Z) (d : dict) : dict :=
  match x with
  | Some n => setitem (py k) (JNum n) d
  | None => d
  end.

(** [if x: d[k] = x] for an [Optional[Dict]]: [None] and [{}] are falsy. *)
Definition put_dict (k : string) (x : option dict) (d : dict) : dict :=
  match x with
  | Some (f :: fs) => setitem (py k) (JObj (f :: fs)) d
  | _ => d
  end.

End Dict.
Import Dict.

(* ===================================================================== *)
(** ** The resources: what each method asks of [HttpClient] *)
(* ===================================================================== *)

Module Api.
Import Http.

(** One call of [self.http.get/post/patch]: the verb, the path and the
    two keyword arguments. *)
Record api_call : Type := mkApiCall {
  verb : str;
  path : str;
  params : option dict;
  json_data : option dict
}.

Definition GET (path : str) (params : option dict) : api_call :=
  {| verb := py "GET"; path := path; params := params; json_data := None |}.
Definition POST (path : str) (json_data : option dict) : api_call :=
  {| verb := py "POST"; path := path; params := None; json_data := json_data |}.

(** The call is made: [params] and [json_data] go to [session.request]
    with the rest and do not change what comes back. *)
Definition perform (c : HttpClient) (a : api_call) (script : list wire_event) : option call :=
  Http.request c (verb a) (path a) script.

End Api.
Import Api.

(** [resources/items.py]: the request of [update_webhook]; the method
    returns what [HttpClient] returns for it. *)
Module Items.


End Items.

(** [resources/transactions.py]: the requests of [list] and
    [categorize] (the answer is then handed to a pydantic model). *)
Module Transactions.

Definition list' (item_id account_id start_date end_date : option str)
    (categories : option (list str)) (min_amount max_amount : option Z)
    (page limit : Z) : api_call :=
  let params := [(py "page", JNum page); (py "limit", JNum limit)] in
  let params := put_str "itemId" item_id params in
  let params := put_str "accountId" account_id params in
  let params := put_str "startDate" start_date params in
  let params := put_str "endDate" end_date params in
  let params := put_strs "categories" categories params in
  let params := put_int "minAmount" min_amount params in
  let params := put_int "maxAmount" max_amount params in
  GET (py "/transactions") (Some params).


End Transactions.

(** [resources/credit_score.py] *)
Module CreditScoreResource.

Definition simulate (pay_off_debt increase_income reduce_utilization : option Z) : api_call :=
  let scenarios := [] in
  let scenarios := put_int "payOffDebt" pay_off_debt scenarios in
  let scenarios := put_int "increaseIncome" increase_income scenarios in
  let scenarios := put_int "reduceUtilization" reduce_utilization scenarios in
  POST (py "/credit-score/simulate") (Some scenarios).

End CreditScoreResource.

(** [resources/webhooks.py]: the request of [update]. *)
Module WebhookCalls.


End WebhookCalls.

(* ===================================================================== *)
(** ** [resources/auth.py] *)
(* ===================================================================== *)

Module Auth.
Import Http.

(** What a method of [Auth] can raise: what [HttpClient] raised, the
    [TypeError] of unpacking a response that is not a mapping, or
    pydantic's [ValidationError]. *)
Inductive auth_exn : Type :=
| FromHttp (x : exn)
| NotAMapping
| ValidationFailed.

(** A finished method: the client afterwards, the result, and the call
    it made. *)
Record outcome (A : Type) : Type := mkOutcome {
  client_after : HttpClient;
  result : auth_exn + A;
  made : call
}.
Arguments client_after {A} _.
Arguments result {A} _.
Arguments made {A} _.

Definition login_call (email password : str) (device_fingerprint : option dict) : api_call :=
  let data := [(py "email", JStr email); (py "password", JStr password)] in
  let data := put_dict "deviceFingerprint" device_fingerprint data in
  POST (py "/auth/login") (Some data).




Section Models.
(** A pydantic response model with tokens: its type, the validating
    constructor applied to the unpacked response ([None] when it raises
    [ValidationError]) and the projection [result.tokens.access_token]. *)
Variable Model : Type.
Variable validate : dict -> option Model.
Variable tokens_access_token : Model -> str.

(** The common body of [register] and [login]: post, build the model,
    set the token, return the model.  An exception at any step leaves
    the method there. *)
Definition post_and_chain (c : HttpClient) (a : api_call) (script : list wire_event)
    : option (outcome Model) :=
  match perform c a script with
  | None => None
  | Some k =>
      Some match answer k with
           | inl x => {| client_after := client k; result := inl (FromHttp x); made := k |}
           | inr (JObj response) =>
               match validate response with
               | Some model =>
                   {| client_after := set_access_token (tokens_access_token model) (client k);
                      result := inr model; made := k |}
               | None =>
                   {| client_after := client k; result := inl ValidationFailed; made := k |}
               end
           | inr _ => {| client_after := client k; result := inl NotAMapping; made := k |}
           end
  end.

Definition login (c : HttpClient) (email password : str)
    (device_fingerprint : option dict) (script : list wire_event) : option (outcome Model) :=
  post_and_chain c (login_call email password device_fingerprint) script.


End Models.

End Auth.

(* ===================================================================== *)
(** ** Further vocabulary *)
(* ===================================================================== *)

Module Notions.
Import Urllib3 Requests Http.

(** The two operations on the token, and a sequence of them applied to a
    client, first one first. *)
Inductive token_op : Type :=
| SetToken (t : str)
| ClearToken.

Definition apply_op (c : HttpClient) (o : token_op) : HttpClient :=
  match o with
  | SetToken t => set_access_token t c
  | ClearToken => clear_access_token c
  end.

Definition apply_ops (ops : list token_op) (c : HttpClient) : HttpClient :=
  fold_left apply_op ops c.


(** The pause the policy of [__init__] takes after the [n]-th failure in
    a row when no [Retry-After] is given: nothing after the first, then
    2, 4, 8, ... seconds, never more than 120. *)
Definition backoff_after (n : nat) : Z :=
  if (n <=? 1)%nat then 0 else Z.min 120 (2 ^ (Z.of_nat n - 1)).

(** A digit of lower-case hexadecimal. *)
Definition is_lower_hex (c : N) : bool :=
  ((48 <=? c) && (c <=? 57) || (97 <=? c) && (c <=? 102))%N.



(** A validator that accepts an object with a string under
    [accessToken] and keeps that string. *)
Definition sample_validate (d : dict) : option str :=
  match assoc (py "accessToken") d with
  | Some (JStr t) => Some t
  | _ => None
  end.


(** The entry a dictionary gets for a key, if any. *)
Definition entry (k : string) (v : option json) : dict :=
  match v with
  | Some x => [(py k, x)]
  | None => []
  end.


(** A 404 from a gateway, with a body that is not JSON. *)
Definition gateway_404 : Response :=
  Spec.response_of 404 "Not Found" (inl RequestsJSONDecodeError) None.




End Notions.

(* ===================================================================== *)
(** * Properties *)
(* ===================================================================== *)

(** ** Basic facts about the models *)

Module Facts.
Import Urllib3 Requests Http Spec.

Lemma str_eqb_eq a b : str_eqb a b = true <-> a = b.
Proof. unfold str_eqb. apply bool_decide_eq_true. Qed.


Lemma mem_Z_In x l : mem_Z x l = true <-> In x l.
Proof.
  unfold mem_Z. rewrite existsb_exists. split.
  - intros (y & Hy & E). apply Z.eqb_eq in E. by subst.
  - intros H. exists x. split; [done | apply Z.eqb_refl].
Qed.

Lemma mem_Z_not_In x l : mem_Z x l = false <-> ~ In x l.
Proof. rewrite <- mem_Z_In. by destruct (mem_Z x l). Qed.

(** A 2xx status is [ok]. *)
Lemma ok_2xx r : 200 <= resp_status r < 300 -> ok r = true.
Proof. unfold ok. intros H. apply negb_true_iff, andb_false_iff. lia. Qed.

(** A status that is neither listed nor among those whose [Retry-After]
    urllib3 honours is never retried. *)
Lemma is_retry_unlisted r m s h :
  mem_Z s (status_forcelist r) = false ->
  mem_Z s RETRY_AFTER_STATUS_CODES = false ->
  is_retry r m s h = false.
Proof.
  intros H1 H2. unfold is_retry. rewrite H1, H2.
  destruct (negb _); [done|]. by rewrite !andb_false_r.
Qed.

Lemma unlisted_2xx s :
  200 <= s < 300 ->
  mem_Z s [429; 500; 502; 503; 504] = false /\ mem_Z s RETRY_AFTER_STATUS_CODES = false.
Proof. intros H. rewrite !mem_Z_not_In. cbn. lia. Qed.


(** Every finished [urlopen] made at least one attempt, and paused once
    between any two. *)
Lemma urlopen_attempts script : forall r m k,
  urlopen r m script = Some k ->
  attempts k = S (length (sleeps k)).
Proof.
  induction script as [|ev rest IH]; intros r m k; [done|].
  cbn [urlopen]. unfold retried, finished.
  destruct ev as [resp|e].
  - destruct (is_retry _ _ _ _); [|by intros [= <-]].
    destruct (increment r m None) as [| |r'] eqn:Ei.
    1,2: destruct (raise_on_status r); by intros [= <-].
    destruct (urlopen r' m rest) as [k'|] eqn:E; [|done].
    intros [= <-]. cbn. f_equal. by eapply IH.
  - destruct (increment r m (Some e)) as [| |r'] eqn:Ei.
    1,2: by intros [= <-].
    destruct (urlopen r' m rest) as [k'|] eqn:E; [|done].
    intros [= <-]. cbn. f_equal. by eapply IH.
Qed.

(** A retry uses up one of [total], and there was one to use. *)
Lemma increment_total r method error r' :
  increment r method error = Continue r' ->
  total r' = total r - 1 /\ 0 <= total r - 1.
Proof.
  unfold increment, is_exhausted. cbn [total].
  destruct (total r - 1 <? 0) eqn:E.
  - destruct error as [[]|]; try done; by destruct (negb _).
  - apply Z.ltb_ge in E.
    destruct error as [[]|]; try (by intros [= <-]);
      destruct (negb _); try done; by intros [= <-].
Qed.

(** [urlopen] ends: against a script longer than the retries left it
    returns or raises. *)
Lemma urlopen_total script : forall r method,
  (Z.to_nat (total r) < length script)%nat ->
  exists u, urlopen r method script = Some u.
Proof.
  induction script as [|ev rest IH]; intros r method Hlen; [cbn in Hlen; lia|].
  cbn [urlopen]. unfold finished.
  assert (forall e pause r',
             increment r method e = Continue r' ->
             exists u, retried pause (urlopen r' method rest) = Some u) as Hnext.
  { intros e pause r' Hi. apply increment_total in Hi as [Ht Hpos].
    destruct (IH r' method) as [u ->]; [|by eexists].
    rewrite Ht. cbn [length] in Hlen. lia. }
  destruct ev as [resp|e].
  - destruct (is_retry _ _ _ _); [|by eexists].
    destruct (increment r method None) eqn:Ei.
    1,2: destruct (raise_on_status r); by eexists.
    by eapply Hnext.
  - destruct (increment r method (Some e)) eqn:Ei; try by eexists.
    by eapply Hnext.
Qed.

(** The policy of a client is the one [__init__] built; setting and
    clearing the token leave it alone. *)
Lemma configured_init api_key environment base timeout mr :
  configured (__init__ api_key environment base timeout mr) mr.
Proof. reflexivity. Qed.

Lemma configured_set c mr t : configured c mr -> configured (set_access_token t c) mr.
Proof. by unfold configured. Qed.

Lemma configured_clear c mr : configured c mr -> configured (clear_access_token c) mr.
Proof. by unfold configured. Qed.

(** [request] hands the client back as it got it. *)
Lemma request_client c method path script k :
  Http.request c method path script = Some k -> client k = c.
Proof.
  unfold Http.request. destruct (Requests.request _ _ _ _); [|done].
  by intros [= <-].
Qed.

Lemma request_answer c method path script k :
  Http.request c method path script = Some k -> answer k = conclude (outcome (wire k)).
Proof.
  unfold Http.request. destruct (Requests.request _ _ _ _); [|done].
  by intros [= <-].
Qed.

(** What [request] is in terms of [urlopen]. *)
Lemma request_urlopen c method path script k :
  Http.request c method path script = Some k <->
  exists u, urlopen (max_retries (session c)) method script = Some u /\
    k = {| client := c;
           answer := conclude (adapter_error (result u));
           wire := {| outcome := adapter_error (result u);
                      sent := replicate (attempts u)
                                {| req_method := method;
                                   req_url := (base_url c, lstrip_slash path);
                                   req_headers := headers (session c) |};
                      pauses := sleeps u |} |}.
Proof.
  unfold Http.request, Requests.request.
  destruct (urlopen _ _ _) as [u|]; split.
  - intros [= <-]. by exists u.
  - by intros (u' & [= <-] & ->).
  - done.
  - by intros (u' & [=] & _).
Qed.

(** A call ends, whatever the server does, once it has been given more
    events than [max_retries]. *)
Lemma request_total c mr method path script :
  configured c mr ->
  (Z.to_nat mr < length script)%nat ->
  exists k, Http.request c method path script = Some k.
Proof.
  intros Hc Hlen.
  destruct (urlopen_total script (max_retries (session c)) method) as [u Hu].
  { by rewrite Hc. }
  eexists. apply request_urlopen. by exists u.
Qed.

End Facts.

(* ===================================================================== *)
(** ** The transport: success, classification, token *)
(* ===================================================================== *)

Module Transport.
Import Urllib3 Requests Http Spec Facts Notions.

(** A response the policy does not retry ends the call at once. *)
Lemma request_not_retried c method path response rest :
  is_retry (max_retries (session c)) method (resp_status response)
           (has_retry_after response) = false ->
  exists k,
    Http.request c method path (Got response :: rest) = Some k /\
    client k = c /\
    answer k = conclude (inr response) /\
    length (sent (wire k)) = 1%nat /\
    pauses (wire k) = [].
Proof.
  intros H. eexists. split.
  - apply request_urlopen. eexists. split; [|reflexivity].
    cbn [urlopen]. rewrite H. reflexivity.
  - by cbn.
Qed.

(** C4.  A 2xx response ends the call after one attempt with the decoded
    body: the value under [data] when the body is an object with that
    key, the whole decoded value otherwise. *)
Theorem success_unwraps_data c mr method path response rest data :
  configured c mr ->
  200 <= resp_status response < 300 ->
  resp_json response = inr data ->
  exists k,
    Http.request c method path (Got response :: rest) = Some k /\
    length (sent (wire k)) = 1%nat /\
    (forall fields d,
        data = JObj fields -> assoc (py "data") fields = Some d ->
        answer k = inr d) /\
    ((forall fields, data = JObj fields -> assoc (py "data") fields = None) ->
        answer k = inr data).
Proof.
  intros Hc Hs Hj.
  destruct (request_not_retried c method path response rest) as (k & Hk & _ & Ha & Hn & _).
  { rewrite Hc. destruct (unlisted_2xx _ Hs). by apply is_retry_unlisted. }
  exists k. split; [done|]. split; [done|].
  rewrite Ha. cbn [conclude]. rewrite (ok_2xx _ Hs), Hj. cbn [negb].
  split.
  - intros fields d -> Hd. unfold unwrap. by rewrite Hd.
  - intros Hno. destruct data; try done. unfold unwrap. by rewrite (Hno _ eq_refl).
Qed.

Lemma success_unwraps_data_witness :
  exists k,
    Http.request sample_client (py "GET") (py "/accounts") [Got accounts_ok] = Some k /\
    length (sent (wire k)) = 1%nat /\
    (forall fields d,
        JObj [(py "success", JBool true); (py "data", JObj [(py "accounts", JArr [])])]
          = JObj fields ->
        assoc (py "data") fields = Some d -> answer k = inr d) /\
    ((forall fields,
        JObj [(py "success", JBool true); (py "data", JObj [(py "accounts", JArr [])])]
          = JObj fields ->
        assoc (py "data") fields = None) ->
        answer k = inr (JObj [(py "success", JBool true);
                              (py "data", JObj [(py "accounts", JArr [])])])).
Proof.
  apply (success_unwraps_data sample_client 3 (py "GET") (py "/accounts") accounts_ok []).
  - reflexivity.
  - cbn. lia.
  - reflexivity.
Defined.

(** The same call, evaluated: the envelope is gone, [{"accounts": []}]
    is what comes back. *)
Example accounts_unwrapped :
  answer <$> Http.get sample_client (py "/accounts") [Got accounts_ok]
  = Some (inr (JObj [(py "accounts", JArr [])])).
Proof. vm_compute. reflexivity. Qed.

(** What [_handle_error_response] raises on a well-formed envelope. *)
Lemma handle_envelope response fields error :
  resp_json response = inr (JObj fields) ->
  assoc (py "error") fields = Some (JObj error) ->
  _handle_error_response response =
    Raise (new_ReshADXError
             (Val (get_default (py "message") (lit "Unknown error") error))
             (get_default (py "code") (lit "UNKNOWN_ERROR") error)
             (resp_status response)
             (Some (get_default (py "details") JNull error))).
Proof.
  intros Hj He. unfold _handle_error_response. rewrite Hj. cbn. by rewrite He.
Qed.

(** What it raises when the body is not JSON, or is an object without
    the key [error]. *)
Lemma handle_fallback response :
  (exists x, resp_json response = inl x) \/
  (exists fields, resp_json response = inr (JObj fields) /\
                  assoc (py "error") fields = None) ->
  _handle_error_response response = fallback_error response.
Proof.
  unfold _handle_error_response.
  intros [[x ->] | (fields & -> & Hn)]; [done|]. cbn. by rewrite Hn.
Qed.





End Transport.

(* ===================================================================== *)
(** ** The bearer token *)
(* ===================================================================== *)

Module Token.
Import Urllib3 Requests Http Spec Facts.

Lemma init_agree api_key environment base timeout mr :
  token_header_agree (__init__ api_key environment base timeout mr).
Proof. unfold token_header_agree. by cbn. Qed.

Lemma set_agree c t : token_header_agree (set_access_token t c).
Proof. unfold token_header_agree. cbn. by rewrite lookup_insert_eq. Qed.

Lemma clear_agree c : token_header_agree (clear_access_token c).
Proof.
  unfold token_header_agree. cbn.
  destruct (headers (session c) !! "Authorization"%string) eqn:E; [|done].
  by rewrite lookup_delete_eq.
Qed.

(** C10.  The [Authorization] header is present exactly when
    [access_token] is set, and then it is ["Bearer "] followed by the
    token: this holds of a new client, it holds after
    [set_access_token] and after [clear_access_token], and [request]
    keeps it. *)
Theorem token_header_invariant :
  (forall api_key environment base timeout mr,
      token_header_agree (__init__ api_key environment base timeout mr)) /\
  (forall c t, token_header_agree (set_access_token t c)) /\
  (forall c, token_header_agree (clear_access_token c)) /\
  (forall c method path script k,
      token_header_agree c ->
      Http.request c method path script = Some k ->
      token_header_agree (client k)).
Proof.
  split; [apply init_agree|]. split; [apply set_agree|]. split; [apply clear_agree|].
  intros c method path script k Hc Hk. by rewrite (request_client _ _ _ _ _ Hk).
Qed.

Lemma token_header_invariant_witness :
  token_header_agree sample_client /\
  forall k,
    Http.request (set_access_token (py "tok") sample_client) (py "GET") (py "/auth/me")
      [Got accounts_ok] = Some k ->
    token_header_agree (client k).
Proof.
  destruct token_header_invariant as (Hinit & Hset & _ & Hreq).
  split; [apply Hinit|].
  intros k. apply Hreq. apply Hset.
Defined.

(** The invariant, spelled out. *)
Lemma token_header_agree_cases c :
  token_header_agree c <->
  (access_token c = None /\ headers (session c) !! "Authorization"%string = None) \/
  (exists t, access_token c = Some t /\
             headers (session c) !! "Authorization"%string = Some (py "Bearer " ++ t)%list).
Proof.
  unfold token_header_agree. destruct (access_token c) as [t|]; cbn; split.
  - intros H. right. by exists t.
  - by intros [[? _] | (t' & [= <-] & ?)].
  - intros H. by left.
  - by intros [[_ ?] | (t' & ? & _)].
Qed.





(** The headers of a request made with a token, evaluated. *)
Example bearer_header_sent :
  (fun k => map authorization (sent (wire k)))
    <$> Http.get (set_access_token (py "tok") sample_client) (py "/accounts") [Got accounts_ok]
  = Some [Some (py "Bearer tok")].
Proof. vm_compute. reflexivity. Qed.

End Token.

(* ===================================================================== *)
(** ** Retrying *)
(* ===================================================================== *)

Module Retrying.
Import Urllib3 Requests Http Spec Facts.






(** What that [PATCH] call does: one attempt, and the envelope of the
    first 503 is raised. *)
Example patch_first_failure_raised :
  (fun k => (length (sent (wire k)), answer k))
    <$> Http.patch sample_client (py "/items/9")
          (map Got [unavailable; unavailable; unavailable] ++ [Got accounts_ok])
  = Some (1%nat,
          inl (Raise {| cls := ReshADXError_class;
                        message := Val (lit "try later");
                        code := lit "SERVICE_UNAVAILABLE";
                        status_code := 503;
                        details := JObj [] |})).
Proof. vm_compute. reflexivity. Qed.

(** [increment] keeps the policy's switches. *)
Lemma increment_respect r method error r' :
  increment r method error = Continue r' ->
  respect_retry_after_header r' = respect_retry_after_header r.
Proof.
  unfold increment.
  destruct error as [[]|];
    repeat match goal with
           | |- context [if ?b then _ else _] => destruct b
           end;
    try done; by intros [= <-].
Qed.

(** A response with a positive [Retry-After] that is followed by another
    attempt is followed by a pause of that many seconds, six hours at
    most. *)
Lemma urlopen_retry_after script : forall r method u i resp n,
  respect_retry_after_header r = true ->
  urlopen r method script = Some u ->
  script !! i = Some (Got resp) ->
  resp_retry_after resp = Some n ->
  (0 < n)%N ->
  (S i < attempts u)%nat ->
  sleeps u !! i = Some (Z.min (Z.of_N n) DEFAULT_RETRY_AFTER_MAX).
Proof.
  induction script as [|ev rest IH]; intros r method u i resp n Hr Hu Hi Hn Hpos Hnext;
    [done|].
  cbn [urlopen] in Hu. unfold retried, finished in Hu.
  destruct ev as [x|e].
  - destruct (is_retry _ _ _ _); [|injection Hu as <-; cbn in Hnext; lia].
    destruct (increment r method None) as [| |r'] eqn:Ei.
    1,2: destruct (raise_on_status r); injection Hu as <-; cbn in Hnext; lia.
    destruct (urlopen r' method rest) as [u'|] eqn:E; [|done].
    pose proof (increment_respect _ _ _ _ Ei) as Hr'. rewrite Hr in Hr'.
    injection Hu as <-. cbn [sleeps attempts] in *.
    destruct i as [|j]; cbn [lookup list_lookup] in *.
    + injection Hi as ->. unfold sleep. rewrite Hr', Hn.
      by apply N.ltb_lt in Hpos as ->.
    + eapply IH; eauto. lia.
  - destruct (increment r method (Some e)) as [| |r'] eqn:Ei.
    1,2: injection Hu as <-; cbn in Hnext; lia.
    destruct (urlopen r' method rest) as [u'|] eqn:E; [|done].
    pose proof (increment_respect _ _ _ _ Ei) as Hr'. rewrite Hr in Hr'.
    injection Hu as <-. cbn [sleeps attempts] in *.
    destruct i as [|j]; cbn [lookup list_lookup] in *; [done|].
    eapply IH; eauto. lia.
Qed.

(** C9.  In any call, a 429 response that carries [Retry-After: 2] and
    after which a further attempt is made is followed by a pause of 2
    seconds, hence of at least 2, whatever the number of earlier
    failures and so whatever the backoff formula gives at that point. *)
Theorem retry_after_precedes_backoff c mr method path script k i response :
  configured c mr ->
  Http.request c method path script = Some k ->
  script !! i = Some (Got response) ->
  resp_status response = 429 ->
  resp_retry_after response = Some 2%N ->
  (S i < length (sent (wire k)))%nat ->
  exists d, pauses (wire k) !! i = Some d /\ 2 <= d /\ d = 2.
Proof.
  intros Hc Hk Hi _ Hh Hnext.
  apply request_urlopen in Hk as (u & Hu & ->). cbn in *.
  rewrite length_replicate in Hnext. rewrite Hc in Hu.
  exists 2. split; [|lia].
  by apply (urlopen_retry_after script (retry_strategy mr) method u i response 2%N).
Qed.

Lemma retry_after_precedes_backoff_witness :
  exists k,
    Http.request sample_client (py "GET") (py "/accounts")
      [Got broken; Got broken; Got slow_down; Got accounts_ok] = Some k /\
    exists d, pauses (wire k) !! 2%nat = Some d /\ 2 <= d /\ d = 2.
Proof.
  destruct (Http.request sample_client (py "GET") (py "/accounts")
              [Got broken; Got broken; Got slow_down; Got accounts_ok]) as [k|] eqn:Hk;
    [|vm_compute in Hk; discriminate].
  exists k. split; [reflexivity|].
  apply (retry_after_precedes_backoff sample_client 3 (py "GET") (py "/accounts")
           [Got broken; Got broken; Got slow_down; Got accounts_ok] k 2 slow_down).
  - reflexivity.
  - exact Hk.
  - reflexivity.
  - reflexivity.
  - reflexivity.
  - assert ((fun k => length (sent (wire k)))
              <$> Http.request sample_client (py "GET") (py "/accounts")
                    [Got broken; Got broken; Got slow_down; Got accounts_ok]
            = Some 4%nat) as E by (vm_compute; reflexivity).
    rewrite Hk in E. cbn in E. injection E as ->. lia.
Defined.

(** The pauses of that call: none after the first failure, the backoff
    2 after the second, and after the 429 the 2 of its header where the
    backoff formula gives 4. *)
Example pauses_with_retry_after :
  (fun k => pauses (wire k))
    <$> Http.get sample_client (py "/accounts")
          [Got broken; Got broken; Got slow_down; Got accounts_ok]
  = Some [0; 2; 2]
  /\ get_backoff_time
       {| total := 0; backoff_factor := 1; status_forcelist := [];
          allowed_methods := []; raise_on_status := true;
          respect_retry_after_header := true; history := 3 |} = 4.
Proof. split; vm_compute; reflexivity. Qed.

(** The same header on the first failure, where the backoff is 0. *)
Example pause_on_first_failure :
  (fun k => pauses (wire k))
    <$> Http.get sample_client (py "/accounts") [Got slow_down; Got accounts_ok]
  = Some [2].
Proof. vm_compute. reflexivity. Qed.

(** A [Retry-After] of more than six hours is slept for six hours. *)
Example retry_after_capped :
  (fun k => pauses (wire k))
    <$> Http.get sample_client (py "/accounts")
          [Got (response_of 429 "wait" (inl RequestsJSONDecodeError) (Some 100000%N));
           Got accounts_ok]
  = Some [21600].
Proof. vm_compute. reflexivity. Qed.

End Retrying.

(* ===================================================================== *)
(** ** Classification of failures *)
(* ===================================================================== *)

Module Classification.
Import Urllib3 Requests Http Spec Facts.

(** The three [except] clauses, by exception class. *)
Lemma translate_cases e :
  exists err, translate e = Raise err /\ status_code err = 0 /\
    code err = (if is_Timeout e then lit "TIMEOUT_ERROR" else lit "NETWORK_ERROR").
Proof. destruct e; eexists; (split; [reflexivity|]); by cbn. Qed.

(** A call never touches the token slot or the headers, however it
    ends. *)
Lemma request_leaves_token c method path script k :
  Http.request c method path script = Some k ->
  access_token (client k) = access_token c /\
  headers (session (client k)) = headers (session c).
Proof. intros Hk. by rewrite (request_client _ _ _ _ _ Hk). Qed.

(** A response that is not [ok] and reaches [request] is classified by
    [_handle_error_response]: with a well-formed envelope the error
    carries the envelope's [message], [code] and [details] and the
    response's status. *)
Lemma envelope_error response fields error :
  ok response = false ->
  resp_json response = inr (JObj fields) ->
  assoc (py "error") fields = Some (JObj error) ->
  exists err,
    conclude (inr response) = inl (Raise err) /\
    cls err = ReshADXError_class /\
    message err = Val (get_default (py "message") (lit "Unknown error") error) /\
    code err = get_default (py "code") (lit "UNKNOWN_ERROR") error /\
    status_code err = resp_status response /\
    details err = (match assoc (py "details") error with
                   | Some d => if truthy d then d else JObj []
                   | None => JObj []
                   end).
Proof.
  intros Hok Hj He. cbn [conclude]. rewrite Hok. cbn [negb].
  rewrite (Transport.handle_envelope _ _ _ Hj He).
  eexists. split; [reflexivity|]. cbn. unfold get_default.
  by destruct (assoc (py "details") error).
Qed.

(** Without an envelope -- the body is not JSON, or is an object
    without [error] -- the fallback is a [ServerError] whose message
    holds the status and the body text; its [status_code] is the fixed
    500 of the class. *)
Lemma fallback_server_error response :
  ok response = false ->
  (exists x, resp_json response = inl x) \/
  (exists fields, resp_json response = inr (JObj fields) /\
                  assoc (py "error") fields = None) ->
  exists err,
    conclude (inr response) = inl (Raise err) /\
    cls err = ServerError_class /\
    message err = Val (JStr (py "HTTP " ++ str_of_int (resp_status response)
                             ++ py ": " ++ resp_text response)%list) /\
    code err = lit "SERVER_ERROR" /\
    status_code err = 500.
Proof.
  intros Hok Hb. cbn [conclude]. rewrite Hok. cbn [negb].
  rewrite (Transport.handle_fallback _ Hb). by eexists.
Qed.

(** [_handle_error_response] raises a [ReshADXError] except on the
    malformed bodies, where a [TypeError] or an [AttributeError] escapes. *)
Lemma handle_typed response :
  is_typed (_handle_error_response response)
  = match resp_json response with
    | inl _ => true
    | inr d => negb (malformed_error_body d)
    end.
Proof.
  unfold _handle_error_response, malformed_error_body, contains_error, getitem_error.
  destruct (resp_json response) as [x|d]; [done|].
  destruct d as [| | |s|l|f]; try done.
  - by destruct (contains s (py "error")).
  - by destruct (existsb (eq_str (py "error")) l).
  - destruct (assoc (py "error") f) as [[]|]; done.
Qed.

(** A read timeout on an allowed method is retried; when the retries are
    used up the adapter raises [ConnectionError], so the call reports
    [NETWORK_ERROR].  On [PATCH] it is raised at once as [ReadTimeout]
    and reported as [TIMEOUT_ERROR]. *)
Example read_timeout_codes :
  (fun k => match answer k with inl (Raise e) => Some (code e) | _ => None end)
    <$> Http.get sample_client (py "/accounts")
          [Broke ReadTimeoutError; Broke ReadTimeoutError;
           Broke ReadTimeoutError; Broke ReadTimeoutError]
  = Some (Some (lit "NETWORK_ERROR"))
  /\
  (fun k => match answer k with inl (Raise e) => Some (code e) | _ => None end)
    <$> Http.patch sample_client (py "/items/9") [Broke ReadTimeoutError]
  = Some (Some (lit "TIMEOUT_ERROR")).
Proof. split; vm_compute; reflexivity. Qed.

(** C3 at two inputs where the code departs from it.  A 404 whose body
    is the JSON document [null] has no [error] key, yet no
    [ServerError] is raised: the membership test raises [TypeError],
    which nothing catches.  And a 503 with an error envelope, repeated
    until the retries of a [GET] are used up, never reaches
    [_handle_error_response]: the adapter raises [RetryError], which
    [request] reports as [NETWORK_ERROR] with status 0. *)
Theorem unclassified_error_responses :
  answer <$> Http.get sample_client (py "/items/9") [Got null_body]
    = Some (inl TypeError)
  /\
  (fun k => (length (sent (wire k)), answer k))
    <$> Http.get sample_client (py "/accounts")
          [Got unavailable; Got unavailable; Got unavailable; Got unavailable]
    = Some (4%nat,
            inl (Raise {| cls := ReshADXError_class;
                          message := StrOf (RetryError 503);
                          code := lit "NETWORK_ERROR";
                          status_code := 0;
                          details := JObj [] |})).
Proof. split; vm_compute; reflexivity. Qed.

(** C8 at an input where the code departs from it.  A 404 whose body is
    [{"error": "Not found"}] makes [error.get] fail: the call ends with
    an [AttributeError], which is not a [ReshADXError] and has no
    [code].  The token set before the call is still there. *)
Theorem untyped_failure :
  (fun k => (answer k, access_token (client k)))
    <$> Http.get (set_access_token (py "tok") sample_client) (py "/items/9")
          [Got string_error]
    = Some (inl AttributeError, Some (py "tok"))
  /\ is_typed AttributeError = false.
Proof. split; vm_compute; reflexivity. Qed.

(** Further bodies on which [_handle_error_response] lets an untyped
    exception escape: a number, a string that contains "error", a list
    that contains "error". *)
Example untyped_escapes :
  _handle_error_response (response_of 500 "5" (inr (JNum 5)) None) = TypeError /\
  _handle_error_response
    (response_of 502 "'upstream error'" (inr (lit "upstream error")) None) = TypeError /\
  _handle_error_response
    (response_of 500 "['error']" (inr (JArr [lit "error"])) None) = TypeError.
Proof. repeat split; vm_compute; reflexivity. Qed.

End Classification.

(* ===================================================================== *)
(** ** Webhook signatures *)
(* ===================================================================== *)

Module Signature.
Import Hash Webhooks Spec Facts.

Lemma hex_of_byte_ascii b : forallb is_ascii (hex_of_byte b) = true.
Proof. destruct b; reflexivity. Qed.

Lemma hexlify_ascii bs : forallb is_ascii (hexlify bs) = true.
Proof.
  induction bs as [|b bs IH]; [done|].
  unfold hexlify in *. cbn [map concat]. rewrite forallb_app, IH.
  by rewrite hex_of_byte_ascii.
Qed.

Lemma expected_signature_inr payload secret e :
  expected_signature payload secret = inr e <->
  exists key msg,
    encode_utf8 secret = Some key /\ encode_utf8 payload = Some msg /\
    e = hexlify (hmac_sha256 key msg).
Proof.
  unfold expected_signature.
  destruct (encode_utf8 secret) as [key|]; [destruct (encode_utf8 payload) as [msg|]|]; split.
  - intros [= <-]. by exists key, msg.
  - by intros (k & m & [= <-] & [= <-] & ->).
  - done.
  - by intros (k & m & _ & [=] & _).
  - done.
  - by intros (k & m & [=] & _).
Qed.

Lemma expected_signature_ascii payload secret e :
  expected_signature payload secret = inr e -> forallb is_ascii e = true.
Proof.
  intros H. apply expected_signature_inr in H as (k & m & _ & _ & ->).
  apply hexlify_ascii.
Qed.

(** [verify_signature] accepts exactly the expected signature. *)
Lemma verify_signature_expected payload sig secret :
  verify_signature payload sig secret = true <->
  expected_signature payload secret = inr sig.
Proof.
  unfold verify_signature, verify_body.
  destruct (expected_signature payload secret) as [x|e] eqn:E; [done|].
  unfold compare_digest. rewrite (expected_signature_ascii _ _ _ E), andb_true_r.
  destruct (forallb is_ascii sig) eqn:Ha.
  - rewrite str_eqb_eq. split; [by intros -> | by intros [= ->]].
  - split; [done|]. intros [= <-].
    pose proof (expected_signature_ascii _ _ _ E). congruence.
Qed.

Lemma one_char_changed_ne (s s' : str) : one_char_changed s s' -> s <> s'.
Proof.
  intros (pre & c & c' & post & Hne & -> & ->) E.
  apply app_inv_head in E. by injection E.
Qed.

(** What is proved of [verify_signature]: it is true exactly when [sig]
    is the lower-case hexadecimal HMAC-SHA256 of the UTF-8 bytes of
    [payload] under those of [secret]; once a triple verifies, replacing
    one character of [sig] makes it false; and whatever the body
    raises -- a string that UTF-8 cannot encode, a signature that is
    not ASCII -- the result is false.  That replacing one character of
    [payload] or of [secret] makes it false as well says that no two
    such inputs have the same HMAC-SHA256, which is left open. *)
Lemma verify_signature_hmac payload sig secret :
  (verify_signature payload sig secret = true <->
   exists key msg,
     encode_utf8 secret = Some key /\ encode_utf8 payload = Some msg /\
     sig = hexlify (hmac_sha256 key msg)) /\
  (verify_signature payload sig secret = true ->
   forall sig', one_char_changed sig sig' ->
                verify_signature payload sig' secret = false) /\
  ((exists x, verify_body payload sig secret = inl x) ->
   verify_signature payload sig secret = false) /\
  (encode_utf8 secret = None \/ encode_utf8 payload = None \/ forallb is_ascii sig = false ->
   (exists x, verify_body payload sig secret = inl x) /\
   verify_signature payload sig secret = false).
Proof.
  split; [|split; [|split]].
  - rewrite verify_signature_expected. apply expected_signature_inr.
  - intros Hv. apply verify_signature_expected in Hv.
    intros sig' Hch. apply not_true_is_false. rewrite verify_signature_expected, Hv.
    intros [= E]. by apply (one_char_changed_ne _ _ Hch).
  - intros [x Hx]. unfold verify_signature. by rewrite Hx.
  - intros H.
    assert (exists x, verify_body payload sig secret = inl x) as [x Hx].
    { unfold verify_body, expected_signature.
      destruct H as [-> | [H | H]]; [by eexists| |].
      - destruct (encode_utf8 secret); rewrite ?H; by eexists.
      - destruct (encode_utf8 secret); [|by eexists].
        destruct (encode_utf8 payload); [|by eexists].
        unfold compare_digest. rewrite H. by eexists. }
    split; [by exists x|]. unfold verify_signature. by rewrite Hx.
Qed.

Lemma verify_signature_hmac_witness :
  verify_signature (py "what do ya want for nothing?")
    (py "5bdcc146bf60754e6a042426089575c75a003f089d2739839dec58b964ec3843")
    (py "Jefe") = true /\
  (forall sig',
      one_char_changed
        (py "5bdcc146bf60754e6a042426089575c75a003f089d2739839dec58b964ec3843") sig' ->
      verify_signature (py "what do ya want for nothing?") sig' (py "Jefe") = false) /\
  verify_signature [55296%N] (py "00") (py "Jefe") = false.
Proof.
  pose proof (verify_signature_hmac (py "what do ya want for nothing?")
                (py "5bdcc146bf60754e6a042426089575c75a003f089d2739839dec58b964ec3843")
                (py "Jefe")) as (_ & Hflip & _ & _).
  pose proof (verify_signature_hmac [55296%N] (py "00") (py "Jefe")) as (_ & _ & _ & Hexn).
  assert (verify_signature (py "what do ya want for nothing?")
            (py "5bdcc146bf60754e6a042426089575c75a003f089d2739839dec58b964ec3843")
            (py "Jefe") = true) as Hv by (vm_compute; reflexivity).
  split; [exact Hv|]. split.
  - apply (Hflip Hv).
  - apply Hexn. right. left. reflexivity.
Defined.

(** The verifier on the second test case of RFC 4231, and on the same
    case with one character of the payload, of the secret and of the
    signature replaced; on a payload with a lone surrogate; on a
    signature that is not ASCII. *)
Example verify_signature_samples :
  let sig := py "5bdcc146bf60754e6a042426089575c75a003f089d2739839dec58b964ec3843" in
  verify_signature (py "what do ya want for nothing?") sig (py "Jefe") = true /\
  verify_signature (py "what do ya want for nothing!") sig (py "Jefe") = false /\
  verify_signature (py "what do ya want for nothing?") sig (py "jefe") = false /\
  verify_signature (py "what do ya want for nothing?")
    (py "5bdcc146bf60754e6a042426089575c75a003f089d2739839dec58b964ec3844") (py "Jefe") = false /\
  verify_signature (py "what do ya want for nothing?")
    (py "5BDCC146BF60754E6A042426089575C75A003F089D2739839DEC58B964EC3843") (py "Jefe") = false /\
  verify_body [55296%N] sig (py "Jefe") = inl UnicodeEncodeError /\
  verify_body (py "what do ya want for nothing?") [233%N] (py "Jefe") = inl CompareTypeError.
Proof. repeat split; vm_compute; reflexivity. Qed.

(** The verifier on texts outside ASCII, with the signatures the
    standard library computes for their UTF-8 bytes: characters of two,
    three and four bytes under a Cyrillic secret; the first and the last
    code point of each UTF-8 length; a secret of one two-byte
    character. *)
Example verify_signature_utf8_samples :
  verify_signature [233; 8364; 128512; 32; 111; 107]%N
    (py "e0b8c5d519e7cb130cb2e58ee57452e8f6534eb23a9d4495a0507818c648c9ae")
    [1082; 1083; 1102; 1095]%N = true /\
  verify_signature [127; 128; 2047; 2048; 65535; 65536; 1114111]%N
    (py "87e37da7da84d51ca302ce9c3be4f655bf2ff419099008af0a8964b254988d85")
    (py "k") = true /\
  verify_signature (py "{}")
    (py "5d0965e52d32203395c8d008a8560fd56a777b3d0f50c6ad407033d7df70e9e6")
    [233]%N = true.
Proof. repeat split; vm_compute; reflexivity. Qed.

(** C6.  [parse_payload] returns [None] when the signature does not
    verify, whatever the body; it returns [None] when the signature
    verifies and the body is not JSON; otherwise it returns the decoded
    body. *)
Theorem parse_payload_cases (json_loads : str -> option json) raw_body sig secret :
  (verify_signature raw_body sig secret = false ->
   parse_payload json_loads raw_body sig secret = JNull) /\
  (verify_signature raw_body sig secret = true ->
   json_loads raw_body = None ->
   parse_payload json_loads raw_body sig secret = JNull) /\
  (forall v,
      verify_signature raw_body sig secret = true ->
      json_loads raw_body = Some v ->
      parse_payload json_loads raw_body sig secret = v).
Proof.
  unfold parse_payload. split; [|split].
  - by intros ->.
  - by intros -> ->.
  - by intros v -> ->.
Qed.

Lemma parse_payload_cases_witness :
  parse_payload sample_loads (py "{}") (py "00") (py "whsec") = JNull /\
  parse_payload sample_loads (py "{oops") (sign (py "{oops") (py "whsec")) (py "whsec") = JNull /\
  parse_payload sample_loads (py "{}") (sign (py "{}") (py "whsec")) (py "whsec") = JObj [].
Proof.
  split; [|split].
  - destruct (parse_payload_cases sample_loads (py "{}") (py "00") (py "whsec"))
      as (Hbad & _ & _).
    apply Hbad. vm_compute. reflexivity.
  - destruct (parse_payload_cases sample_loads (py "{oops") (sign (py "{oops") (py "whsec"))
                (py "whsec")) as (_ & Hjunk & _).
    apply Hjunk; vm_compute; reflexivity.
  - destruct (parse_payload_cases sample_loads (py "{}") (sign (py "{}") (py "whsec"))
                (py "whsec")) as (_ & _ & Hgood).
    apply Hgood; vm_compute; reflexivity.
Defined.

(** The signature of [{}] under [whsec], as the standard library
    computes it. *)
Example sign_sample :
  sign (py "{}") (py "whsec")
  = py "ae6341ea7f40a435db57d903d02cba19085efb8a913f8cfbd8cff3d7df0c7a2d".
Proof. vm_compute. reflexivity. Qed.

End Signature.

(* ===================================================================== *)
(** ** Dictionaries *)
(* ===================================================================== *)

Module Dict_facts.
Import Http Spec Facts Notions.












End Dict_facts.

(* ===================================================================== *)
(** ** More on the transport *)
(* ===================================================================== *)

Module Transport_more.
Import Urllib3 Requests Http Spec Facts Notions.




(** [clear_access_token] deletes the header, present or not. *)
Lemma clear_headers c :
  headers (session (clear_access_token c))
  = base.delete "Authorization"%string (headers (session c)).
Proof.
  cbn. destruct (headers (session c) !! "Authorization"%string) eqn:E; [done|].
  by rewrite delete_id.
Qed.

Lemma client_eq c c' :
  api_key c = api_key c' -> access_token c = access_token c' ->
  timeout c = timeout c' -> base_url c = base_url c' ->
  headers (session c) = headers (session c') ->
  max_retries (session c) = max_retries (session c') ->
  c = c'.
Proof.
  destruct c as [? ? ? ? [? ?]], c' as [? ? ? ? [? ?]]. cbn. by intros -> -> -> -> -> ->.
Qed.

Lemma apply_op_twice c o1 o2 : apply_op (apply_op c o1) o2 = apply_op c o2.
Proof.
  apply client_eq; destruct o1, o2; try reflexivity;
    cbn [apply_op]; rewrite ?clear_headers;
    cbn [set_access_token with_token session headers];
    rewrite ?clear_headers.
  - apply insert_insert_eq.
  - apply delete_insert_eq.
  - apply insert_delete_eq.
  - apply delete_delete_eq.
Qed.

(** X3.  Of any sequence of [set_access_token] and [clear_access_token]
    only the last one counts: the client it leaves is the one the last
    operation alone would have left.  In particular setting twice keeps
    the second token, and clearing twice is clearing once. *)
Theorem last_token_operation_wins ops o c :
  apply_ops (ops ++ [o]) c = apply_op c o.
Proof.
  unfold apply_ops. rewrite fold_left_app. cbn.
  induction ops as [|o1 ops IH] using rev_ind; [done|].
  rewrite fold_left_app. cbn. by rewrite apply_op_twice.
Qed.






Lemma lstrip_slashes n p : lstrip_slash (repeat 47%N n ++ p) = lstrip_slash p.
Proof. induction n as [|n IH]; [done|]. exact IH. Qed.

Lemma lstrip_no_slash p q : lstrip_slash p <> 47%N :: q.
Proof.
  induction p as [|c p IH]; [done|]. cbn.
  destruct (c =? 47)%N eqn:E; [exact IH|].
  intros [= -> _]. by rewrite N.eqb_refl in E.
Qed.

(** X4.  Leading slashes of the path do not matter: a call with any
    number of them in front of a path is the call with that path, and
    the relative reference handed to [urljoin] never starts with a
    slash. *)
Theorem leading_slashes_ignored c method n p script :
  Http.request c method (repeat 47%N n ++ p) script = Http.request c method p script /\
  (forall k q, Http.request c method p script = Some k ->
               Forall (fun r => snd (req_url r) <> 47%N :: q) (sent (wire k))).
Proof.
  split.
  - unfold Http.request. by rewrite lstrip_slashes.
  - intros k q Hk. apply request_urlopen in Hk as (u & _ & ->). cbn.
    apply Forall_forall. intros r Hr.
    apply elem_of_replicate in Hr as [-> _]. cbn. apply lstrip_no_slash.
Qed.

Lemma leading_slashes_ignored_witness :
  Http.request sample_client (py "GET") (py "//accounts") [Got accounts_ok]
  = Http.request sample_client (py "GET") (py "accounts") [Got accounts_ok].
Proof.
  apply (leading_slashes_ignored sample_client (py "GET") 2 (py "accounts") [Got accounts_ok]).
Defined.




(** The response [urlopen] returns is the one its last attempt met. *)
Lemma urlopen_returned_last script : forall r m u resp,
  urlopen r m script = Some u ->
  result u = Returned resp ->
  script !! (attempts u - 1)%nat = Some (Got resp).
Proof.
  induction script as [|ev rest IH]; intros r m u resp; [done|].
  cbn [urlopen]. unfold retried, finished.
  assert (forall pause r',
             retried pause (urlopen r' m rest) = Some u ->
             result u = Returned resp ->
             (ev :: rest) !! (attempts u - 1)%nat = Some (Got resp)) as Hnext.
  { intros pause r'. unfold retried.
    destruct (urlopen r' m rest) as [u'|] eqn:E; [|done].
    intros [= <-] Hr. cbn in *.
    pose proof (urlopen_attempts _ _ _ _ E) as Ha.
    specialize (IH _ _ _ _ E Hr). rewrite Ha in *. cbn in *.
    by rewrite Nat.sub_0_r in *. }
  destruct ev as [x|e].
  - destruct (is_retry _ _ _ _); [|by intros [= <-] [= ->]].
    destruct (increment r m None) eqn:Ei.
    1,2: destruct (raise_on_status r); intros [= <-]; cbn; try done; by intros [= ->].
    apply Hnext.
  - destruct (increment r m (Some e)) eqn:Ei; try (by intros [= <-]).
    apply Hnext.
Qed.

(** X7.  A call returns a value only from a response that is [ok] and
    whose body decoded: the response its last attempt received has a
    status outside 400..599, its body is JSON, and the value is that
    body unwrapped.  No error response ever yields a return value. *)
Theorem value_only_from_ok_response c method p script k v :
  Http.request c method p script = Some k ->
  answer k = inr v ->
  exists response data,
    script !! (length (sent (wire k)) - 1)%nat = Some (Got response) /\
    ~ (400 <= resp_status response < 600) /\
    resp_json response = inr data /\
    v = unwrap data.
Proof.
  intros Hk Hv. apply request_urlopen in Hk as (u & Hu & ->). cbn in *.
  rewrite length_replicate.
  destruct (result u) as [response| |] eqn:Hr; cbn in Hv;
    [| destruct reason as [[]|]; discriminate Hv | destruct e; discriminate Hv].
  destruct (ok response) eqn:Hok; cbn in Hv; [|discriminate Hv].
  destruct (resp_json response) as [[]|data] eqn:Hj; try discriminate Hv.
  injection Hv as <-. exists response, data.
  split; [by eapply urlopen_returned_last|]. split; [|done].
  unfold ok in Hok. apply negb_true_iff, andb_false_iff in Hok. lia.
Qed.

Lemma value_only_from_ok_response_witness :
  exists k,
    Http.request sample_client (py "GET") (py "/accounts")
      [Got broken; Got accounts_ok] = Some k /\
    exists response data,
      [Got broken; Got accounts_ok] !! (length (sent (wire k)) - 1)%nat = Some (Got response) /\
      ~ (400 <= resp_status response < 600) /\
      resp_json response = inr data /\
      JObj [(py "accounts", JArr [])] = unwrap data.
Proof.
  destruct (Http.request sample_client (py "GET") (py "/accounts")
              [Got broken; Got accounts_ok]) as [k|] eqn:Hk;
    [|vm_compute in Hk; discriminate].
  exists k. split; [reflexivity|].
  apply (value_only_from_ok_response sample_client (py "GET") (py "/accounts")
           [Got broken; Got accounts_ok] k _ Hk).
  assert (answer <$> Http.request sample_client (py "GET") (py "/accounts")
                       [Got broken; Got accounts_ok]
          = Some (inr (JObj [(py "accounts", JArr [])]))) as E by (vm_compute; reflexivity).
  rewrite Hk in E. by injection E.
Defined.

(** X8.  An error response that is not retried and has no envelope --
    its body is not JSON, or is an object without [error] -- is raised
    as a [ServerError]: code [SERVER_ERROR], message
    [HTTP <status>: <text>], and [status_code] 500 whatever the status
    of the response was. *)
Theorem no_envelope_is_server_error_500 c method p response rest :
  is_retry (max_retries (session c)) method (resp_status response)
           (has_retry_after response) = false ->
  ok response = false ->
  (exists x, resp_json response = inl x) \/
  (exists fields, resp_json response = inr (JObj fields) /\
                  assoc (py "error") fields = None) ->
  exists k e,
    Http.request c method p (Got response :: rest) = Some k /\
    answer k = inl (Raise e) /\
    cls e = ServerError_class /\
    code e = lit "SERVER_ERROR" /\
    status_code e = 500 /\
    message e = Val (JStr (py "HTTP " ++ str_of_int (resp_status response)
                           ++ py ": " ++ resp_text response)%list) /\
    details e = JObj [].
Proof.
  intros Hnr Hok Hbody.
  destruct (Transport.request_not_retried c method p response rest Hnr)
    as (k & Hk & _ & Ha & _).
  destruct (Classification.fallback_server_error response Hok Hbody)
    as (e & He & Hcls & Hmsg & Hcode & Hst).
  exists k, e. rewrite Ha. repeat (split; [done|]).
  cbn [conclude] in He. rewrite Hok in He. cbn [negb] in He.
  rewrite (Transport.handle_fallback _ Hbody) in He. by injection He as <-.
Qed.

Lemma no_envelope_is_server_error_500_witness :
  exists k e,
    Http.request sample_client (py "GET") (py "/items/9") [Got gateway_404] = Some k /\
    answer k = inl (Raise e) /\
    cls e = ServerError_class /\
    code e = lit "SERVER_ERROR" /\
    status_code e = 500 /\
    message e = Val (JStr (py "HTTP " ++ str_of_int 404 ++ py ": " ++ py "Not Found")%list) /\
    details e = JObj [].
Proof.
  apply (no_envelope_is_server_error_500 sample_client (py "GET") (py "/items/9")
           gateway_404 []).
  - reflexivity.
  - reflexivity.
  - left. by eexists.
Defined.

(** X9.  An error response that reaches [_handle_error_response] is
    raised as a [ReshADXError] exactly when its body is not one of the
    malformed ones: not JSON at all, an object whose [error] is absent
    or an object, a string or an array without "error" in it.  On every
    other body a [TypeError] or an [AttributeError] leaves the call. *)
Theorem typed_unless_malformed c method p response rest :
  is_retry (max_retries (session c)) method (resp_status response)
           (has_retry_after response) = false ->
  ok response = false ->
  exists k,
    Http.request c method p (Got response :: rest) = Some k /\
    ((exists e, answer k = inl (Raise e)) <->
     (forall d, resp_json response = inr d -> malformed_error_body d = false)) /\
    ((exists d, resp_json response = inr d /\ malformed_error_body d = true) ->
     answer k = inl TypeError \/ answer k = inl AttributeError).
Proof.
  intros Hnr Hok.
  destruct (Transport.request_not_retried c method p response rest Hnr)
    as (k & Hk & _ & Ha & _).
  exists k. split; [done|]. rewrite Ha. cbn [conclude]. rewrite Hok. cbn [negb].
  pose proof (Classification.handle_typed response) as Ht.
  split; [split|].
  - intros [e [= He]] d Hd. rewrite He, Hd in Ht. cbn in Ht.
    by destruct (malformed_error_body d).
  - intros Hall. destruct (_handle_error_response response) as [e| | | |] eqn:E;
      [by exists e| | | |];
      cbn in Ht; destruct (resp_json response) as [|d]; try done;
      by rewrite (Hall d eq_refl) in Ht.
  - intros (d & Hd & Hm).
    unfold _handle_error_response, malformed_error_body, contains_error, getitem_error in *.
    rewrite Hd. clear Ht.
    destruct d as [| | |s|l|f]; try (by left).
    + rewrite Hm. by left.
    + rewrite Hm. by left.
    + destruct (assoc (py "error") f) as [[]|]; try done; by right.
Qed.

Lemma typed_unless_malformed_witness :
  exists k,
    Http.request sample_client (py "GET") (py "/items/9") [Got string_error] = Some k /\
    ((exists e, answer k = inl (Raise e)) <->
     (forall d, resp_json string_error = inr d -> malformed_error_body d = false)) /\
    ((exists d, resp_json string_error = inr d /\ malformed_error_body d = true) ->
     answer k = inl TypeError \/ answer k = inl AttributeError).
Proof.
  apply (typed_unless_malformed sample_client (py "GET") (py "/items/9") string_error []);
    reflexivity.
Defined.




Lemma increment_policy r method error r' :
  increment r method error = Continue r' ->
  backoff_factor r' = backoff_factor r /\ history r' = S (history r).
Proof.
  unfold increment.
  destruct error as [[]|];
    repeat match goal with
           | |- context [if ?b then _ else _] => destruct b
           end;
    try done; by intros [= <-].
Qed.

Lemma backoff_time r :
  backoff_factor r = 1 -> Z.max 0 (get_backoff_time r) = backoff_after (history r).
Proof.
  intros Hb. unfold get_backoff_time, backoff_after, DEFAULT_BACKOFF_MAX. rewrite Hb.
  destruct (history r <=? 1)%nat eqn:E; [done|].
  apply Nat.leb_gt in E.
  assert (0 < 2 ^ (Z.of_nat (history r) - 1)) by (apply Z.pow_pos_nonneg; lia).
  lia.
Qed.

Lemma urlopen_backoff script : forall r method u i d,
  backoff_factor r = 1 ->
  (forall j x, script !! j = Some (Got x) -> resp_retry_after x = None) ->
  urlopen r method script = Some u ->
  sleeps u !! i = Some d ->
  d = backoff_after (history r + S i).
Proof.
  induction script as [|ev rest IH]; intros r method u i d Hb Hno Hu Hi; [done|].
  cbn [urlopen] in Hu. unfold retried, finished in Hu.
  assert (forall resp r',
             (forall x, resp = Some x -> resp_retry_after x = None) ->
             (backoff_factor r' = backoff_factor r /\ history r' = S (history r)) ->
             retried (sleep r' resp) (urlopen r' method rest) = Some u ->
             d = backoff_after (history r + S i)) as Hnext.
  { intros resp r' Hresp [Hb' Hh]. unfold retried.
    destruct (urlopen r' method rest) as [u'|] eqn:E; [|done].
    intros [= <-]. cbn [sleeps] in Hi. rewrite Hb in Hb'.
    destruct i as [|j]; cbn [lookup list_lookup] in Hi.
    - injection Hi as <-. rewrite Nat.add_1_r, <- Hh, <- (backoff_time r' Hb').
      unfold sleep. destruct resp as [x|]; [|done].
      rewrite (Hresp x eq_refl). by destruct (respect_retry_after_header r').
    - replace (history r + S (S j))%nat with (history r' + S j)%nat by lia.
      eapply (IH r' method u' j d); eauto.
      intros j' x Hx. apply (Hno (S j') x Hx). }
  destruct ev as [x|e].
  - destruct (is_retry _ _ _ _); [|by injection Hu as <-].
    destruct (increment r method None) as [| |r'] eqn:Ei.
    1,2: destruct (raise_on_status r); by injection Hu as <-.
    apply (Hnext (Some x) r'); [|by eapply increment_policy|exact Hu].
    intros ? [= <-]. by apply (Hno 0%nat x).
  - destruct (increment r method (Some e)) as [| |r'] eqn:Ei.
    1,2: by injection Hu as <-.
    apply (Hnext None r'); [done|by eapply increment_policy|exact Hu].
Qed.

(** X11.  When no response carries [Retry-After], the pauses of a call
    follow the backoff of the policy: none after the first failure,
    then 2, 4, 8, ... seconds after the second, third, fourth, ..., and
    never more than 120. *)
Theorem pauses_follow_backoff c mr method p script k i d :
  configured c mr ->
  (forall j x, script !! j = Some (Got x) -> resp_retry_after x = None) ->
  Http.request c method p script = Some k ->
  pauses (wire k) !! i = Some d ->
  d = backoff_after (S i) /\ 0 <= d <= 120.
Proof.
  intros Hc Hno Hk Hi. apply request_urlopen in Hk as (u & Hu & ->). cbn in Hi.
  rewrite Hc in Hu.
  pose proof (urlopen_backoff script (retry_strategy mr) method u i d eq_refl Hno Hu Hi) as ->.
  cbn [history retry_strategy Nat.add]. split; [done|].
  unfold backoff_after. destruct (S i <=? 1)%nat; [lia|].
  assert (0 < 2 ^ (Z.of_nat (S i) - 1)) by (apply Z.pow_pos_nonneg; lia).
  lia.
Qed.

Lemma pauses_follow_backoff_witness :
  exists k,
    Http.request sample_client (py "GET") (py "/accounts")
      [Got broken; Broke ReadTimeoutError; Got unavailable; Got accounts_ok] = Some k /\
    pauses (wire k) = [0; 2; 4] /\
    (4 = backoff_after 3 /\ 0 <= 4 <= 120).
Proof.
  destruct (Http.request sample_client (py "GET") (py "/accounts")
              [Got broken; Broke ReadTimeoutError; Got unavailable; Got accounts_ok])
    as [k|] eqn:Hk; [|vm_compute in Hk; discriminate].
  assert ((fun k => pauses (wire k))
            <$> Http.request sample_client (py "GET") (py "/accounts")
                  [Got broken; Broke ReadTimeoutError; Got unavailable; Got accounts_ok]
          = Some [0; 2; 4]) as E by (vm_compute; reflexivity).
  rewrite Hk in E. injection E as E.
  exists k. split; [reflexivity|]. split; [exact E|].
  apply (pauses_follow_backoff sample_client 3 (py "GET") (py "/accounts")
           [Got broken; Broke ReadTimeoutError; Got unavailable; Got accounts_ok] k 2 4).
  - reflexivity.
  - intros [|[|[|[|[|j]]]]] x; cbn; try done; by intros [= <-].
  - exact Hk.
  - by rewrite E.
Defined.

End Transport_more.

(* ===================================================================== *)
(** ** More on the typed error *)
(* ===================================================================== *)

Module Errors_more.
Import Http Spec Facts.

Lemma eq_str_true l v : eq_str l v = true <-> v = JStr l.
Proof.
  destruct v; cbn; try (split; [discriminate | discriminate]).
  rewrite str_eqb_eq. split; [by intros -> | by intros [= ->]].
Qed.

(** X1.  The four predicates of [ReshADXError] exclude one another: an
    error satisfies at most one of [is_validation_error],
    [is_auth_error], [is_rate_limit_error] and [is_network_error].  Of
    the errors [request] raises for an exception of requests, a timeout
    satisfies none of them and every other one satisfies
    [is_network_error] alone; the fallback [ServerError] satisfies
    none. *)
Theorem error_predicates_exclusive :
  (forall e,
      (is_validation_error e = true ->
       is_auth_error e = false /\ is_rate_limit_error e = false /\ is_network_error e = false) /\
      (is_auth_error e = true ->
       is_validation_error e = false /\ is_rate_limit_error e = false /\
       is_network_error e = false) /\
      (is_rate_limit_error e = true ->
       is_validation_error e = false /\ is_auth_error e = false /\ is_network_error e = false) /\
      (is_network_error e = true ->
       is_validation_error e = false /\ is_auth_error e = false /\
       is_rate_limit_error e = false)) /\
  (forall x, exists e,
      translate x = Raise e /\
      is_network_error e = negb (is_Timeout x) /\
      is_validation_error e = false /\ is_auth_error e = false /\
      is_rate_limit_error e = false) /\
  (forall msg,
      is_validation_error (ServerError msg) = false /\
      is_auth_error (ServerError msg) = false /\
      is_rate_limit_error (ServerError msg) = false /\
      is_network_error (ServerError msg) = false).
Proof.
  split; [|split].
  - intros e. unfold is_validation_error, is_auth_error, is_rate_limit_error, is_network_error.
    split; [|split; [|split]]; intros H;
      repeat (apply orb_true_iff in H; destruct H as [H | H]);
      apply eq_str_true in H; rewrite H; by vm_compute.
  - intros x. destruct x; eexists; (split; [reflexivity|]); by vm_compute.
  - intros msg. by vm_compute.
Qed.

Lemma error_predicates_exclusive_witness :
  is_auth_error (new_ReshADXError (Val (lit "expired")) (lit "TOKEN_EXPIRED") 401 None) = true /\
  is_validation_error (new_ReshADXError (Val (lit "expired")) (lit "TOKEN_EXPIRED") 401 None)
    = false /\
  is_rate_limit_error (new_ReshADXError (Val (lit "expired")) (lit "TOKEN_EXPIRED") 401 None)
    = false /\
  is_network_error (new_ReshADXError (Val (lit "expired")) (lit "TOKEN_EXPIRED") 401 None)
    = false.
Proof.
  destruct error_predicates_exclusive as [Hex _].
  destruct (Hex (new_ReshADXError (Val (lit "expired")) (lit "TOKEN_EXPIRED") 401 None))
    as (_ & Hauth & _).
  assert (is_auth_error (new_ReshADXError (Val (lit "expired")) (lit "TOKEN_EXPIRED") 401 None)
          = true) as Ha by (vm_compute; reflexivity).
  split; [exact Ha|]. exact (Hauth Ha).
Defined.

End Errors_more.

(* ===================================================================== *)
(** ** More on webhook signatures *)
(* ===================================================================== *)

Module Signature_more.
Import Hash Webhooks Spec Facts Notions.

Lemma be_bytes_length n x : length (be_bytes n x) = n.
Proof.
  revert x. induction n as [|n IH]; intros x; [done|].
  cbn. rewrite length_app, IH. cbn. lia.
Qed.

Lemma round_length st kw : length st = 8%nat -> length (round st kw) = 8%nat.
Proof.
  do 9 (destruct st as [|? st]; try discriminate). done.
Qed.

Lemma rounds_length l : forall st,
  length st = 8%nat -> length (fold_left round l st) = 8%nat.
Proof.
  induction l as [|kw l IH]; intros st Hst; [done|].
  cbn. apply IH. by apply round_length.
Qed.

Lemma compress_length st block : length st = 8%nat -> length (compress st block) = 8%nat.
Proof.
  intros Hst. unfold compress.
  rewrite length_map, length_combine, rounds_length by done. lia.
Qed.

Lemma blocks_length fuel : forall ws st,
  length st = 8%nat -> length (blocks fuel ws st) = 8%nat.
Proof.
  induction fuel as [|fuel IH]; intros ws st Hst; [done|].
  cbn. destruct ws; [done|]. apply IH. by apply compress_length.
Qed.

(** A digest has 32 bytes. *)
Lemma sha256_length msg : length (sha256 msg) = 32%nat.
Proof.
  unfold sha256. rewrite length_map.
  match goal with
  | |- context [blocks ?f ?ws H0] =>
      pose proof (blocks_length f ws H0 eq_refl) as Hl;
      destruct (blocks f ws H0) as [|a [|b [|c [|d [|e [|f' [|g [|h [|]]]]]]]]];
      try discriminate Hl
  end.
  cbn [map concat]. by rewrite !length_app, !be_bytes_length.
Qed.

Lemma hmac_sha256_length key msg : length (hmac_sha256 key msg) = 32%nat.
Proof. apply sha256_length. Qed.

Lemma hex_of_byte_lower b : forallb is_lower_hex (hex_of_byte b) = true.
Proof. destruct b; reflexivity. Qed.

Lemma hexlify_shape bs :
  length (hexlify bs) = (2 * length bs)%nat /\ forallb is_lower_hex (hexlify bs) = true.
Proof.
  induction bs as [|b bs [IHl IHh]]; [done|].
  unfold hexlify in *. cbn [map concat]. rewrite length_app, forallb_app, IHl, IHh.
  rewrite hex_of_byte_lower. cbn. split; [lia | done].
Qed.

(** X12.  A signature that verifies has exactly 64 characters, each a
    digit or a letter from [a] to [f]: an upper-case digest, a prefixed
    one, a truncated one or the empty string is refused for every
    payload and secret. *)
Theorem accepted_signature_shape payload sig secret :
  verify_signature payload sig secret = true ->
  length sig = 64%nat /\ forallb is_lower_hex sig = true.
Proof.
  intros Hv. apply Signature.verify_signature_expected in Hv.
  apply Signature.expected_signature_inr in Hv as (key & msg & _ & _ & ->).
  destruct (hexlify_shape (hmac_sha256 key msg)) as [Hl Hh].
  by rewrite Hl, hmac_sha256_length.
Qed.

Lemma accepted_signature_shape_witness :
  length (py "5bdcc146bf60754e6a042426089575c75a003f089d2739839dec58b964ec3843") = 64%nat /\
  forallb is_lower_hex
    (py "5bdcc146bf60754e6a042426089575c75a003f089d2739839dec58b964ec3843") = true.
Proof.
  apply (accepted_signature_shape (py "what do ya want for nothing?")
           (py "5bdcc146bf60754e6a042426089575c75a003f089d2739839dec58b964ec3843")
           (py "Jefe")).
  vm_compute. reflexivity.
Defined.

(** X13.  [parse_payload] hands out a decoded body only for a signature
    that verifies: when it returns anything but [None], the signature is
    the HMAC of the raw body under the secret and the result is what
    [json.loads] made of that body. *)
Theorem parsed_payload_is_authentic (json_loads : str -> option json) raw_body sig secret :
  parse_payload json_loads raw_body sig secret <> JNull ->
  verify_signature raw_body sig secret = true /\
  sig = sign raw_body secret /\
  json_loads raw_body = Some (parse_payload json_loads raw_body sig secret).
Proof.
  unfold parse_payload, sign.
  destruct (verify_signature raw_body sig secret) eqn:Hv; cbn; [|done].
  apply Signature.verify_signature_expected in Hv. rewrite Hv.
  by destruct (json_loads raw_body).
Qed.

Lemma parsed_payload_is_authentic_witness :
  verify_signature (py "{}") (sign (py "{}") (py "whsec")) (py "whsec") = true /\
  sign (py "{}") (py "whsec") = sign (py "{}") (py "whsec") /\
  sample_loads (py "{}")
  = Some (parse_payload sample_loads (py "{}") (sign (py "{}") (py "whsec")) (py "whsec")).
Proof.
  apply (parsed_payload_is_authentic sample_loads (py "{}") (sign (py "{}") (py "whsec"))
           (py "whsec")).
  vm_compute. discriminate.
Defined.

Lemma encode_utf8_app a b :
  encode_utf8 (a ++ b)
  = match encode_utf8 a, encode_utf8 b with
    | Some x, Some y => Some (x ++ y)
    | _, _ => None
    end.
Proof.
  induction a as [|c a IH]; cbn.
  - by destruct (encode_utf8 b).
  - rewrite IH. destruct (utf8_char c), (encode_utf8 a), (encode_utf8 b); try done.
    by rewrite app_assoc.
Qed.

Lemma hmac_sha256_zero_padded key msg :
  (length key < 64)%nat ->
  hmac_sha256 (key ++ [x00]) msg = hmac_sha256 key msg.
Proof.
  intros Hlen. unfold hmac_sha256. rewrite length_app. cbn [length].
  destruct (64 <? length key + 1)%nat eqn:E1; [apply Nat.ltb_lt in E1; lia|].
  destruct (64 <? length key)%nat eqn:E2; [apply Nat.ltb_lt in E2; lia|].
  rewrite length_app. cbn [length].
  replace (64 - length key)%nat with (S (64 - (length key + 1))) by lia.
  cbn [repeat]. by rewrite <- app_assoc.
Qed.

(** X14.  A NUL character appended to a secret of fewer than 64 bytes
    changes nothing: [verify_signature] gives the same answer for the
    two secrets on every payload and signature, since HMAC pads a short
    key with zero bytes. *)
Theorem trailing_nul_secret_equivalent payload sig secret key :
  encode_utf8 secret = Some key ->
  (length key < 64)%nat ->
  verify_signature payload sig (secret ++ [0%N]) = verify_signature payload sig secret.
Proof.
  intros Hk Hlen. unfold verify_signature, verify_body, expected_signature.
  rewrite encode_utf8_app, Hk.
  assert (encode_utf8 [0%N] = Some [x00]) as -> by reflexivity.
  destruct (encode_utf8 payload) as [msg|]; [|done].
  by rewrite hmac_sha256_zero_padded.
Qed.

Lemma trailing_nul_secret_equivalent_witness :
  verify_signature (py "{}") (sign (py "{}") (py "whsec")) (py "whsec" ++ [0%N])
  = verify_signature (py "{}") (sign (py "{}") (py "whsec")) (py "whsec").
Proof.
  apply (trailing_nul_secret_equivalent (py "{}") (sign (py "{}") (py "whsec")) (py "whsec")
           ["w"; "h"; "s"; "e"; "c"]%byte).
  - reflexivity.
  - cbn. lia.
Defined.

End Signature_more.

(* ===================================================================== *)
(** ** The requests of the resources *)
(* ===================================================================== *)

Module Resources_props.
Import Urllib3 Requests Http Spec Facts Notions Dict_facts.


(** The filters at their edges: an empty account id is dropped, a zero
    amount is kept. *)
Example transactions_list_edges :
  params (Transactions.list' None (Some []) None None (Some []) (Some 0) None 1 50)
  = Some [(py "page", JNum 1); (py "limit", JNum 50); (py "minAmount", JNum 0)].
Proof. vm_compute. reflexivity. Qed.

(** X16.  [CreditScoreResource.simulate] posts exactly the scenarios
    that are not [None], in the order pay-off, income, utilization; a
    scenario of 0 is sent, and with no scenario at all the body is the
    empty object. *)
Theorem simulate_body pay_off_debt increase_income reduce_utilization :
  json_data (CreditScoreResource.simulate pay_off_debt increase_income reduce_utilization)
  = Some (entry "payOffDebt" (JNum <$> pay_off_debt)
          ++ entry "increaseIncome" (JNum <$> increase_income)
          ++ entry "reduceUtilization" (JNum <$> reduce_utilization)).
Proof.
  destruct pay_off_debt, increase_income, reduce_utilization; vm_compute; reflexivity.
Qed.





End Resources_props.

(* ===================================================================== *)
(** ** Logging in and out *)
(* ===================================================================== *)

Module Auth_props.
Import Urllib3 Requests Http Spec Facts Notions.

Section Chaining.
Context {Model : Type} (validate : dict -> option Model) (tokens_access_token : Model -> str).




End Chaining.


(** A login that the server refuses leaves the token of an earlier
    login in place. *)
Example refused_login_keeps_token :
  (fun o => access_token (Auth.client_after o))
    <$> Auth.login str sample_validate (fun t => t)
          (set_access_token (py "old") sample_client) (py "a@b.c") (py "pw") None
          [Got not_found]
  = Some (Some (py "old")).
Proof. vm_compute. reflexivity. Qed.

End Auth_props.
